(** * qchat: the model-fallback dispatcher of [app_api.py]

    A shallow embedding of [MODE_PROMPTS], [get_response] and the part of
    the Streamlit script that owns the chat transcript, followed by the
    properties of the dispatcher and of the transcript.

    Conventions of the embedding.
    - A Python [str] is a [string]: the bytes of its UTF-8 encoding (a
      lone surrogate as the three bytes of its code point).  The patterns
      the code searches for are ASCII, so searching the bytes and
      searching the code points agree.
    - Python exceptions are the values of [exn]; a computation that may
      raise returns a [result].  [try]/[except Exception] is [try_except].
    - [st.session_state] is the record [session_state]; code that reads or
      writes it is written in the state-and-exception monad [M].
    - The remote inference client is outside the repository.  It is a
      parameter: a type [World] of client states and one transition
      [create] that answers a chat-completion request. *)

From Stdlib Require Import String Ascii List NArith ZArith Bool Lia.
From Stdlib Require Import Floats.PrimFloat.
Import ListNotations.

Set Warnings "-inexact-float".
Local Open Scope string_scope.
Local Open Scope bool_scope.

(* ================================================================== *)
(** * Python strings *)

Module PyStr.

Definition LF : string := String "010"%char "".

(** [sub in s] *)
Fixpoint contains (sub s : string) : bool :=
  if String.prefix sub s then true
  else match s with
       | EmptyString => false
       | String _ s' => contains sub s'
       end.

Definition is_ascii_upper (c : ascii) : bool :=
  let n := N_of_ascii c in ((65 <=? n) && (n <=? 90))%N.

(** [str.lower] on one character.  Only [A]..[Z] change; the bytes of a
    non-ASCII character are kept. *)
Definition lower_char (c : ascii) : ascii :=
  if is_ascii_upper c then ascii_of_N (N_of_ascii c + 32) else c.

(** [s.lower()] *)
Fixpoint lower (s : string) : string :=
  match s with
  | EmptyString => EmptyString
  | String c s' => String (lower_char c) (lower s')
  end.

Definition hex_digit (n : N) : ascii :=
  if (n <? 10)%N then ascii_of_N (48 + n) else ascii_of_N (87 + n).

(** [n] in lower-case hexadecimal, on [digits] digits. *)
Fixpoint hex (digits : nat) (n : N) : string :=
  match digits with
  | O => EmptyString
  | S d => hex d (n / 16) ++ String (hex_digit (n mod 16)) EmptyString
  end.

Definition BACKSLASH : ascii := "\"%char.
Definition SQUOTE : ascii := "'"%char.
Definition DQUOTE : ascii := ascii_of_N 34.

Fixpoint has_char (c : ascii) (s : string) : bool :=
  match s with
  | EmptyString => false
  | String d s' => Ascii.eqb c d || has_char c s'
  end.

(** The quote [repr] puts around a string: a double quote only when the
    string has a single quote and no double quote. *)
Definition repr_quote (s : string) : ascii :=
  if has_char SQUOTE s && negb (has_char DQUOTE s) then DQUOTE else SQUOTE.

(** [repr] of one ASCII character. *)
Definition repr_char (quote c : ascii) : string :=
  let n := N_of_ascii c in
  if Ascii.eqb c quote || Ascii.eqb c BACKSLASH then String BACKSLASH (String c "")
  else if (n =? 9)%N then String BACKSLASH "t"
  else if (n =? 10)%N then String BACKSLASH "n"
  else if (n =? 13)%N then String BACKSLASH "r"
  else if (n <? 32)%N || (n =? 127)%N then
    String BACKSLASH (String "x" (String (hex_digit (n / 16)) (String (hex_digit (n mod 16)) "")))
  else String c "".

(** The code points from 128 on for which [str.isprintable] is false, as
    closed intervals in increasing order: the characters of the Unicode
    categories Other and Separator.  Unicode 14.0, the database of
    CPython 3.11. *)
Definition NONPRINTABLE : list (N * N) := [
  (128, 160); (173, 173); (888, 889); (896, 899); (907, 907); (909, 909);
  (930, 930); (1328, 1328); (1367, 1368); (1419, 1420); (1424, 1424);
  (1480, 1487); (1515, 1518); (1525, 1541); (1564, 1564); (1757, 1757);
  (1806, 1807); (1867, 1868); (1970, 1983); (2043, 2044); (2094, 2095);
  (2111, 2111); (2140, 2141); (2143, 2143); (2155, 2159); (2191, 2199);
  (2274, 2274); (2436, 2436); (2445, 2446); (2449, 2450); (2473, 2473);
  (2481, 2481); (2483, 2485); (2490, 2491); (2501, 2502); (2505, 2506);
  (2511, 2518); (2520, 2523); (2526, 2526); (2532, 2533); (2559, 2560);
  (2564, 2564); (2571, 2574); (2577, 2578); (2601, 2601); (2609, 2609);
  (2612, 2612); (2615, 2615); (2618, 2619); (2621, 2621); (2627, 2630);
  (2633, 2634); (2638, 2640); (2642, 2648); (2653, 2653); (2655, 2661);
  (2679, 2688); (2692, 2692); (2702, 2702); (2706, 2706); (2729, 2729);
  (2737, 2737); (2740, 2740); (2746, 2747); (2758, 2758); (2762, 2762);
  (2766, 2767); (2769, 2783); (2788, 2789); (2802, 2808); (2816, 2816);
  (2820, 2820); (2829, 2830); (2833, 2834); (2857, 2857); (2865, 2865);
  (2868, 2868); (2874, 2875); (2885, 2886); (2889, 2890); (2894, 2900);
  (2904, 2907); (2910, 2910); (2916, 2917); (2936, 2945); (2948, 2948);
  (2955, 2957); (2961, 2961); (2966, 2968); (2971, 2971); (2973, 2973);
  (2976, 2978); (2981, 2983); (2987, 2989); (3002, 3005); (3011, 3013);
  (3017, 3017); (3022, 3023); (3025, 3030); (3032, 3045); (3067, 3071);
  (3085, 3085); (3089, 3089); (3113, 3113); (3130, 3131); (3141, 3141);
  (3145, 3145); (3150, 3156); (3159, 3159); (3163, 3164); (3166, 3167);
  (3172, 3173); (3184, 3190); (3213, 3213); (3217, 3217); (3241, 3241);
  (3252, 3252); (3258, 3259); (3269, 3269); (3273, 3273); (3278, 3284);
  (3287, 3292); (3295, 3295); (3300, 3301); (3312, 3312); (3315, 3327);
  (3341, 3341); (3345, 3345); (3397, 3397); (3401, 3401); (3408, 3411);
  (3428, 3429); (3456, 3456); (3460, 3460); (3479, 3481); (3506, 3506);
  (3516, 3516); (3518, 3519); (3527, 3529); (3531, 3534); (3541, 3541);
  (3543, 3543); (3552, 3557); (3568, 3569); (3573, 3584); (3643, 3646);
  (3676, 3712); (3715, 3715); (3717, 3717); (3723, 3723); (3748, 3748);
  (3750, 3750); (3774, 3775); (3781, 3781); (3783, 3783); (3790, 3791);
  (3802, 3803); (3808, 3839); (3912, 3912); (3949, 3952); (3992, 3992);
  (4029, 4029); (4045, 4045); (4059, 4095); (4294, 4294); (4296, 4300);
  (4302, 4303); (4681, 4681); (4686, 4687); (4695, 4695); (4697, 4697);
  (4702, 4703); (4745, 4745); (4750, 4751); (4785, 4785); (4790, 4791);
  (4799, 4799); (4801, 4801); (4806, 4807); (4823, 4823); (4881, 4881);
  (4886, 4887); (4955, 4956); (4989, 4991); (5018, 5023); (5110, 5111);
  (5118, 5119); (5760, 5760); (5789, 5791); (5881, 5887); (5910, 5918);
  (5943, 5951); (5972, 5983); (5997, 5997); (6001, 6001); (6004, 6015);
  (6110, 6111); (6122, 6127); (6138, 6143); (6158, 6158); (6170, 6175);
  (6265, 6271); (6315, 6319); (6390, 6399); (6431, 6431); (6444, 6447);
  (6460, 6463); (6465, 6467); (6510, 6511); (6517, 6527); (6572, 6575);
  (6602, 6607); (6619, 6621); (6684, 6685); (6751, 6751); (6781, 6782);
  (6794, 6799); (6810, 6815); (6830, 6831); (6863, 6911); (6989, 6991);
  (7039, 7039); (7156, 7163); (7224, 7226); (7242, 7244); (7305, 7311);
  (7355, 7356); (7368, 7375); (7419, 7423); (7958, 7959); (7966, 7967);
  (8006, 8007); (8014, 8015); (8024, 8024); (8026, 8026); (8028, 8028);
  (8030, 8030); (8062, 8063); (8117, 8117); (8133, 8133); (8148, 8149);
  (8156, 8156); (8176, 8177); (8181, 8181); (8191, 8207); (8232, 8239);
  (8287, 8303); (8306, 8307); (8335, 8335); (8349, 8351); (8385, 8399);
  (8433, 8447); (8588, 8591); (9255, 9279); (9291, 9311); (11124, 11125);
  (11158, 11158); (11508, 11512); (11558, 11558); (11560, 11564);
  (11566, 11567); (11624, 11630); (11633, 11646); (11671, 11679);
  (11687, 11687); (11695, 11695); (11703, 11703); (11711, 11711);
  (11719, 11719); (11727, 11727); (11735, 11735); (11743, 11743);
  (11870, 11903); (11930, 11930); (12020, 12031); (12246, 12271);
  (12284, 12288); (12352, 12352); (12439, 12440); (12544, 12548);
  (12592, 12592); (12687, 12687); (12772, 12783); (12831, 12831);
  (42125, 42127); (42183, 42191); (42540, 42559); (42744, 42751);
  (42955, 42959); (42962, 42962); (42964, 42964); (42970, 42993);
  (43053, 43055); (43066, 43071); (43128, 43135); (43206, 43213);
  (43226, 43231); (43348, 43358); (43389, 43391); (43470, 43470);
  (43482, 43485); (43519, 43519); (43575, 43583); (43598, 43599);
  (43610, 43611); (43715, 43738); (43767, 43776); (43783, 43784);
  (43791, 43792); (43799, 43807); (43815, 43815); (43823, 43823);
  (43884, 43887); (44014, 44015); (44026, 44031); (55204, 55215);
  (55239, 55242); (55292, 63743); (64110, 64111); (64218, 64255);
  (64263, 64274); (64280, 64284); (64311, 64311); (64317, 64317);
  (64319, 64319); (64322, 64322); (64325, 64325); (64451, 64466);
  (64912, 64913); (64968, 64974); (64976, 65007); (65050, 65055);
  (65107, 65107); (65127, 65127); (65132, 65135); (65141, 65141);
  (65277, 65280); (65471, 65473); (65480, 65481); (65488, 65489);
  (65496, 65497); (65501, 65503); (65511, 65511); (65519, 65531);
  (65534, 65535); (65548, 65548); (65575, 65575); (65595, 65595);
  (65598, 65598); (65614, 65615); (65630, 65663); (65787, 65791);
  (65795, 65798); (65844, 65846); (65935, 65935); (65949, 65951);
  (65953, 65999); (66046, 66175); (66205, 66207); (66257, 66271);
  (66300, 66303); (66340, 66348); (66379, 66383); (66427, 66431);
  (66462, 66462); (66500, 66503); (66518, 66559); (66718, 66719);
  (66730, 66735); (66772, 66775); (66812, 66815); (66856, 66863);
  (66916, 66926); (66939, 66939); (66955, 66955); (66963, 66963);
  (66966, 66966); (66978, 66978); (66994, 66994); (67002, 67002);
  (67005, 67071); (67383, 67391); (67414, 67423); (67432, 67455);
  (67462, 67462); (67505, 67505); (67515, 67583); (67590, 67591);
  (67593, 67593); (67638, 67638); (67641, 67643); (67645, 67646);
  (67670, 67670); (67743, 67750); (67760, 67807); (67827, 67827);
  (67830, 67834); (67868, 67870); (67898, 67902); (67904, 67967);
  (68024, 68027); (68048, 68049); (68100, 68100); (68103, 68107);
  (68116, 68116); (68120, 68120); (68150, 68151); (68155, 68158);
  (68169, 68175); (68185, 68191); (68256, 68287); (68327, 68330);
  (68343, 68351); (68406, 68408); (68438, 68439); (68467, 68471);
  (68498, 68504); (68509, 68520); (68528, 68607); (68681, 68735);
  (68787, 68799); (68851, 68857); (68904, 68911); (68922, 69215);
  (69247, 69247); (69290, 69290); (69294, 69295); (69298, 69375);
  (69416, 69423); (69466, 69487); (69514, 69551); (69580, 69599);
  (69623, 69631); (69710, 69713); (69750, 69758); (69821, 69821);
  (69827, 69839); (69865, 69871); (69882, 69887); (69941, 69941);
  (69960, 69967); (70007, 70015); (70112, 70112); (70133, 70143);
  (70162, 70162); (70207, 70271); (70279, 70279); (70281, 70281);
  (70286, 70286); (70302, 70302); (70314, 70319); (70379, 70383);
  (70394, 70399); (70404, 70404); (70413, 70414); (70417, 70418);
  (70441, 70441); (70449, 70449); (70452, 70452); (70458, 70458);
  (70469, 70470); (70473, 70474); (70478, 70479); (70481, 70486);
  (70488, 70492); (70500, 70501); (70509, 70511); (70517, 70655);
  (70748, 70748); (70754, 70783); (70856, 70863); (70874, 71039);
  (71094, 71095); (71134, 71167); (71237, 71247); (71258, 71263);
  (71277, 71295); (71354, 71359); (71370, 71423); (71451, 71452);
  (71468, 71471); (71495, 71679); (71740, 71839); (71923, 71934);
  (71943, 71944); (71946, 71947); (71956, 71956); (71959, 71959);
  (71990, 71990); (71993, 71994); (72007, 72015); (72026, 72095);
  (72104, 72105); (72152, 72153); (72165, 72191); (72264, 72271);
  (72355, 72367); (72441, 72703); (72713, 72713); (72759, 72759);
  (72774, 72783); (72813, 72815); (72848, 72849); (72872, 72872);
  (72887, 72959); (72967, 72967); (72970, 72970); (73015, 73017);
  (73019, 73019); (73022, 73022); (73032, 73039); (73050, 73055);
  (73062, 73062); (73065, 73065); (73103, 73103); (73106, 73106);
  (73113, 73119); (73130, 73439); (73465, 73647); (73649, 73663);
  (73714, 73726); (74650, 74751); (74863, 74863); (74869, 74879);
  (75076, 77711); (77811, 77823); (78895, 82943); (83527, 92159);
  (92729, 92735); (92767, 92767); (92778, 92781); (92863, 92863);
  (92874, 92879); (92910, 92911); (92918, 92927); (92998, 93007);
  (93018, 93018); (93026, 93026); (93048, 93052); (93072, 93759);
  (93851, 93951); (94027, 94030); (94088, 94094); (94112, 94175);
  (94181, 94191); (94194, 94207); (100344, 100351); (101590, 101631);
  (101641, 110575); (110580, 110580); (110588, 110588); (110591, 110591);
  (110883, 110927); (110931, 110947); (110952, 110959); (111356, 113663);
  (113771, 113775); (113789, 113791); (113801, 113807); (113818, 113819);
  (113824, 118527); (118574, 118575); (118599, 118607); (118724, 118783);
  (119030, 119039); (119079, 119080); (119155, 119162); (119275, 119295);
  (119366, 119519); (119540, 119551); (119639, 119647); (119673, 119807);
  (119893, 119893); (119965, 119965); (119968, 119969); (119971, 119972);
  (119975, 119976); (119981, 119981); (119994, 119994); (119996, 119996);
  (120004, 120004); (120070, 120070); (120075, 120076); (120085, 120085);
  (120093, 120093); (120122, 120122); (120127, 120127); (120133, 120133);
  (120135, 120137); (120145, 120145); (120486, 120487); (120780, 120781);
  (121484, 121498); (121504, 121504); (121520, 122623); (122655, 122879);
  (122887, 122887); (122905, 122906); (122914, 122914); (122917, 122917);
  (122923, 123135); (123181, 123183); (123198, 123199); (123210, 123213);
  (123216, 123535); (123567, 123583); (123642, 123646); (123648, 124895);
  (124903, 124903); (124908, 124908); (124911, 124911); (124927, 124927);
  (125125, 125126); (125143, 125183); (125260, 125263); (125274, 125277);
  (125280, 126064); (126133, 126208); (126270, 126463); (126468, 126468);
  (126496, 126496); (126499, 126499); (126501, 126502); (126504, 126504);
  (126515, 126515); (126520, 126520); (126522, 126522); (126524, 126529);
  (126531, 126534); (126536, 126536); (126538, 126538); (126540, 126540);
  (126544, 126544); (126547, 126547); (126549, 126550); (126552, 126552);
  (126554, 126554); (126556, 126556); (126558, 126558); (126560, 126560);
  (126563, 126563); (126565, 126566); (126571, 126571); (126579, 126579);
  (126584, 126584); (126589, 126589); (126591, 126591); (126602, 126602);
  (126620, 126624); (126628, 126628); (126634, 126634); (126652, 126703);
  (126706, 126975); (127020, 127023); (127124, 127135); (127151, 127152);
  (127168, 127168); (127184, 127184); (127222, 127231); (127406, 127461);
  (127491, 127503); (127548, 127551); (127561, 127567); (127570, 127583);
  (127590, 127743); (128728, 128732); (128749, 128751); (128765, 128767);
  (128884, 128895); (128985, 128991); (129004, 129007); (129009, 129023);
  (129036, 129039); (129096, 129103); (129114, 129119); (129160, 129167);
  (129198, 129199); (129202, 129279); (129620, 129631); (129646, 129647);
  (129653, 129655); (129661, 129663); (129671, 129679); (129709, 129711);
  (129723, 129727); (129734, 129743); (129754, 129759); (129768, 129775);
  (129783, 129791); (129939, 129939); (129995, 130031); (130042, 131071);
  (173792, 173823); (177977, 177983); (178206, 178207); (183970, 183983);
  (191457, 194559); (195102, 196607); (201547, 917759); (918000, 1114111)
]%N.

Definition in_interval (cp : N) (r : N * N) : bool :=
  ((fst r <=? cp) && (cp <=? snd r))%N.

(** [chr(cp).isprintable()] for a code point from 128 on. *)
Definition isprintable (cp : N) : bool :=
  negb (existsb (in_interval cp) NONPRINTABLE).

(** [repr] of one non-ASCII character: the character itself, given by
    its [bytes], when it is printable, and an escape with its code point
    otherwise. *)
Definition repr_code_point (cp : N) (bytes : string) : string :=
  if isprintable cp then bytes
  else if (cp <? 256)%N then String BACKSLASH (String "x" (hex 2 cp))
  else if (cp <? 65536)%N then String BACKSLASH (String "u" (hex 4 cp))
  else String BACKSLASH (String "U" (hex 8 cp)).

(** A continuation byte of UTF-8, and the six bits it carries. *)
Definition is_cont (c : ascii) : bool :=
  let n := N_of_ascii c in ((128 <=? n) && (n <? 192))%N.

Definition cont_bits (c : ascii) : N := (N_of_ascii c - 128)%N.

(** [repr] of the characters of [s], decoding the UTF-8 sequences of two,
    three and four bytes (a lone surrogate is the three bytes of its code
    point).  A byte that starts no such sequence belongs to no [str]; it
    is kept. *)
Fixpoint repr_body (quote : ascii) (s : string) : string :=
  match s with
  | EmptyString => EmptyString
  | String b s1 =>
      let n := N_of_ascii b in
      if (n <? 128)%N then repr_char quote b ++ repr_body quote s1
      else
        match s1 with
        | EmptyString => String b EmptyString
        | String c1 s2 =>
            if ((192 <=? n) && (n <? 224))%N && is_cont c1 then
              repr_code_point ((n - 192) * 64 + cont_bits c1)
                (String b (String c1 EmptyString))
              ++ repr_body quote s2
            else
              match s2 with
              | EmptyString => String b (repr_body quote s1)
              | String c2 s3 =>
                  if ((224 <=? n) && (n <? 240))%N && is_cont c1 && is_cont c2 then
                    repr_code_point
                      ((n - 224) * 4096 + cont_bits c1 * 64 + cont_bits c2)
                      (String b (String c1 (String c2 EmptyString)))
                    ++ repr_body quote s3
                  else
                    match s3 with
                    | EmptyString => String b (repr_body quote s1)
                    | String c3 s4 =>
                        if ((240 <=? n) && (n <? 248))%N
                           && is_cont c1 && is_cont c2 && is_cont c3 then
                          repr_code_point
                            ((n - 240) * 262144 + cont_bits c1 * 4096
                             + cont_bits c2 * 64 + cont_bits c3)
                            (String b (String c1 (String c2 (String c3 EmptyString))))
                          ++ repr_body quote s4
                        else String b (repr_body quote s1)
                    end
              end
        end
  end.

(** [repr(s)] for a [str] *)
Definition repr (s : string) : string :=
  let q := repr_quote s in
  String q (repr_body q s ++ String q "").

End PyStr.

(* ================================================================== *)
(** * Values, exceptions and results *)

(** The Python values that reach a transcript or a caller of
    [get_response]: a [str] or [None]. *)
Inductive value : Type :=
| Str (s : string)
| NoneV.

(** The exceptions of class [Exception] that can occur inside
    [get_response].  [KeyboardInterrupt] and [SystemExit] are not of that
    class and are not raised by the client or by the code: they are
    outside the model. *)
Inductive exn : Type :=
| KeyError (key : string)          (* [d[key]] with [key] absent *)
| IndexError                       (* [l[0]] on an empty list *)
| ClientError (message : string).  (* raised by the client; [str(e) = message] *)

(** [str(e)] *)
Definition str (e : exn) : string :=
  match e with
  | KeyError key => PyStr.repr key
  | IndexError => "list index out of range"
  | ClientError message => message
  end.

Inductive result (A : Type) : Type :=
| Returned (a : A)
| Raised (e : exn).

Arguments Returned {A} a.
Arguments Raised {A} e.

(* ================================================================== *)
(** * The mode registry: [MODE_PROMPTS] *)

Record mode_config : Type := {
  system_prompt : string;
  icon : string
}.

(** A Python [dict] keeps insertion order, and the sidebar iterates over
    it: an association list. *)
Definition MODE_PROMPTS : list (string * mode_config) := [
  ("General Chat",
   {| system_prompt := "You are a helpful and friendly English learning assistant. Help the user with their questions in a clear and engaging way.";
      icon := "💬" |});
  ("Grammar Checker",
   {| system_prompt := "You are an expert English grammar teacher. Analyze the user's text for grammar errors, explain the mistakes, and provide corrected versions with clear explanations.";
      icon := "✏️" |});
  ("Paragraph Writer",
   {| system_prompt := "You are a creative writing assistant. Help users write well-structured, coherent paragraphs on various topics. Provide multiple style options (formal, casual, academic) when appropriate.";
      icon := "📝" |});
  ("Python Helper",
   {| system_prompt := "You are a Python programming tutor. Help users understand Python concepts, debug code, write better code, and follow best practices. Provide clear explanations with examples.";
      icon := "🐍" |})
].

Fixpoint dict_get {A : Type} (d : list (string * A)) (key : string) : result A :=
  match d with
  | [] => Raised (KeyError key)
  | (k, v) :: d' => if String.eqb k key then Returned v else dict_get d' key
  end.

Definition dict_keys {A : Type} (d : list (string * A)) : list string :=
  map fst d.

(** [MODE_PROMPTS[mode]] *)
Definition lookup (mode : string) : result mode_config :=
  dict_get MODE_PROMPTS mode.

(* ================================================================== *)
(** * Requests and the client *)

(** [{"role": ..., "content": ...}] *)
Record message : Type := {
  role : string;
  content : value
}.

(** The keyword arguments of [client.chat.completions.create]. *)
Record request : Type := {
  model : string;
  msgs : list message;
  max_tokens : Z;
  temperature : float;
  top_p : float
}.

(** A completion, reduced to what the code reads: for each choice, its
    [message.content], which the client library types [Optional[str]]:
    a [str] or [None].  The list of choices may be empty. *)
Record completion : Type := {
  choices : list value
}.

(** What one call of the client does: it returns a completion or raises
    an [Exception] whose [str] is [message]. *)
Inductive outcome : Type :=
| Completed (c : completion)
| Failed (message : string).

(** The messages [get_response] returns for a classified failure. *)
Definition WARMING_UP : string :=
  "⚠️ The model is warming up. Please wait a moment and try again. This happens when the model hasn't been used recently on the HuggingFace servers."
  ++ PyStr.LF ++ PyStr.LF ++
  "**Tip:** Try clicking your message again in a few seconds.".

Definition AUTH_ERROR : string :=
  "❌ Authentication error. Please check your HF_TOKEN in the .env file.".

Definition GENERIC_PREFIX : string := "Error generating response: ".

Definition models_to_try : list string := [
  "Qwen/Qwen2.5-1.5B-Instruct";
  "mistralai/Mistral-7B-Instruct-v0.3";
  "meta-llama/Llama-3.2-3B-Instruct";
  "google/gemma-2-2b-it"
].

(** The request of lines 93-102 for one candidate. *)
Definition chat_request (system_prompt user_input model : string) : request :=
  {| model := model;
     msgs := [ {| role := "system"; content := Str system_prompt |};
               {| role := "user"; content := Str user_input |} ];
     max_tokens := 512;
     temperature := 0.7%float;
     top_p := 0.9%float |}.

(** The handler of lines 112-119, applied to [str(e)]. *)
Definition classify (error_msg : string) : string :=
  if PyStr.contains "model_pending_deploy" error_msg
     || PyStr.contains "not ready for inference" error_msg
  then WARMING_UP
  else if PyStr.contains "authentication" (PyStr.lower error_msg)
          || PyStr.contains "unauthorized" (PyStr.lower error_msg)
  then AUTH_ERROR
  else GENERIC_PREFIX ++ error_msg.

(* ================================================================== *)
(** * The dispatcher and the script, over an arbitrary client *)

Section Script.

Variable World : Type.
Variable create : request -> World -> outcome * World.

(** [st.session_state].  [sent] is not in the program: it records the
    requests handed to the client, oldest first. *)
Record session_state : Type := {
  messages : list message;
  current_mode : string;
  client : World;
  sent : list request
}.

Definition M (A : Type) : Type := session_state -> result A * session_state.

Definition ret {A : Type} (a : A) : M A := fun st => (Returned a, st).

Definition raise {A : Type} (e : exn) : M A := fun st => (Raised e, st).

Definition bind {A B : Type} (m : M A) (k : A -> M B) : M B :=
  fun st =>
    match m st with
    | (Returned a, st') => k a st'
    | (Raised e, st') => (Raised e, st')
    end.

(** [try: m  except Exception as e: handler e] *)
Definition try_except {A : Type} (m : M A) (handler : exn -> M A) : M A :=
  fun st =>
    match m st with
    | (Returned a, st') => (Returned a, st')
    | (Raised e, st') => handler e st'
    end.

Definition lift {A : Type} (r : result A) : M A := fun st => (r, st).

Notation "x <- m ;; k" := (bind m (fun x => k))
  (at level 61, m at next level, right associativity).

(** [st.session_state.client.chat.completions.create(...)] *)
Definition chat_completions_create (r : request) : M completion :=
  fun st =>
    let (o, w) := create r (client st) in
    let st' := {| messages := messages st;
                  current_mode := current_mode st;
                  client := w;
                  sent := sent st ++ [r] |} in
    match o with
    | Completed c => (Returned c, st')
    | Failed message => (Raised (ClientError message), st')
    end.

(** [completion.choices[0].message.content] *)
Definition first_choice (c : completion) : M value :=
  match choices c with
  | [] => raise IndexError
  | x :: _ => ret x
  end.

(** The body of the inner [try], lines 93-104. *)
Definition attempt (system_prompt user_input model : string) : M value :=
  completion <- chat_completions_create (chat_request system_prompt user_input model) ;;
  first_choice completion.

(** [models_to_try[-1]], read only inside the loop, where the list is
    not empty. *)
Definition last_model (models : list string) : string := last models "".

(** The [for] loop of lines 91-110 over the candidates still to try.
    Its value is what the function returns: leaving the loop without a
    [return] reaches the end of the function, which returns [None]. *)
Fixpoint for_model_in (models rest : list string)
         (system_prompt user_input : string) : M value :=
  match rest with
  | [] => ret NoneV
  | model :: rest' =>
      try_except
        (response <- attempt system_prompt user_input model ;;
         ret response)
        (fun model_error =>
           if negb (String.eqb model (last_model models))
           then for_model_in models rest' system_prompt user_input
           else raise model_error)
  end.

Definition get_response (user_input mode : string) : M value :=
  try_except
    (cfg <- lift (lookup mode) ;;
     let system_prompt := system_prompt cfg in
     for_model_in models_to_try models_to_try system_prompt user_input)
    (fun e =>
       let error_msg := str e in
       if PyStr.contains "model_pending_deploy" error_msg
          || PyStr.contains "not ready for inference" error_msg
       then ret (Str WARMING_UP)
       else if PyStr.contains "authentication" (PyStr.lower error_msg)
               || PyStr.contains "unauthorized" (PyStr.lower error_msg)
       then ret (Str AUTH_ERROR)
       else ret (Str (GENERIC_PREFIX ++ str e))).

(** ** The script around the dispatcher

    Streamlit runs the script from top to bottom once for each
    interaction with a widget; [st.session_state] survives from one run
    to the next.  Rendering calls change no state and are left out. *)

Inductive interaction : Type :=
| ClickMode (mode_name : string)  (* the sidebar button of a mode *)
| ClickClear                      (* the "Clear Chat" button *)
| Submit (prompt : string)        (* [st.chat_input] returns [prompt] *)
| NoInteraction.                  (* first load, or a rerun *)

Definition get_state : M session_state := fun st => (Returned st, st).

Definition set_messages (ms : list message) : M unit :=
  fun st => (Returned tt,
             {| messages := ms;
                current_mode := current_mode st;
                client := client st;
                sent := sent st |}).

Definition set_current_mode (name : string) : M unit :=
  fun st => (Returned tt,
             {| messages := messages st;
                current_mode := name;
                client := client st;
                sent := sent st |}).

(** [st.session_state.messages.append(m)] *)
Definition messages_append (m : message) : M unit :=
  st <- get_state ;;
  set_messages (messages st ++ [m]).

(** [st.button(...)] of the mode [mode_name] in this run. *)
Definition mode_button (ev : interaction) (mode_name : string) : bool :=
  match ev with
  | ClickMode clicked => String.eqb clicked mode_name
  | _ => false
  end.

Definition clear_button (ev : interaction) : bool :=
  match ev with
  | ClickClear => true
  | _ => false
  end.

(** [st.chat_input(...)]: the submitted text, or [None]. *)
Definition chat_input (ev : interaction) : option string :=
  match ev with
  | Submit prompt => Some prompt
  | _ => None
  end.

(** Truth value of [prompt := st.chat_input(...)]: [None] and the empty
    string are false. *)
Definition truthy (v : option string) : bool :=
  match v with
  | Some s => negb (String.eqb s "")
  | None => false
  end.

(** Lines 125-127: one button for each key of [MODE_PROMPTS]. *)
Fixpoint sidebar_buttons (ev : interaction) (names : list string) : M unit :=
  match names with
  | [] => ret tt
  | mode_name :: names' =>
      _ <- (if mode_button ev mode_name
            then set_current_mode mode_name
            else ret tt) ;;
      sidebar_buttons ev names'
  end.

(** How a run of the script ends: at its last line, or at [st.rerun()]. *)
Inductive control : Type :=
| Finished
| Rerun.

(** Lines 122-172, one run. *)
Definition script (ev : interaction) : M control :=
  _ <- sidebar_buttons ev (dict_keys MODE_PROMPTS) ;;
  st <- get_state ;;
  _ <- lift (lookup (current_mode st)) ;;  (* line 130 reads the icon *)
  if clear_button ev then
    _ <- set_messages [] ;;
    ret Rerun
  else
    match chat_input ev with
    | Some prompt =>
        if truthy (Some prompt) then
          _ <- messages_append {| role := "user"; content := Str prompt |} ;;
          st <- get_state ;;
          response <- get_response prompt (current_mode st) ;;
          _ <- messages_append {| role := "assistant"; content := response |} ;;
          ret Finished
        else ret Finished
    | None => ret Finished
    end.

(** One interaction: a run, and after [st.rerun()] a second run in which
    no widget is active. *)
Definition run (ev : interaction) : M unit :=
  c <- script ev ;;
  match c with
  | Finished => ret tt
  | Rerun => _ <- script NoInteraction ;; ret tt
  end.

(** The session after a sequence of interactions, oldest first.  An
    exception that escapes a run ends that run; the session keeps what
    the run had written. *)
Fixpoint run_all (evs : list interaction) (st : session_state) : session_state :=
  match evs with
  | [] => st
  | ev :: evs' => run_all evs' (snd (run ev st))
  end.

(** Lines 41-56: the session when the script starts for the first time,
    with the client in state [w]. *)
Definition initial (w : World) : session_state :=
  {| messages := [];
     current_mode := "General Chat";
     client := w;
     sent := [] |}.

End Script.

Arguments messages {World} s.
Arguments current_mode {World} s.
Arguments client {World} s.
Arguments sent {World} s.
Arguments Build_session_state {World}.
Arguments initial {World} w.
Arguments ret {World A} a.
Arguments raise {World A} e.
Arguments bind {World A B} m k.
Arguments try_except {World A} m handler.
Arguments lift {World A} r.
Arguments chat_completions_create {World} create r.
Arguments first_choice {World} c.
Arguments attempt {World} create system_prompt user_input model.
Arguments for_model_in {World} create models rest system_prompt user_input.
Arguments get_response {World} create user_input mode.
Arguments get_state {World}.
Arguments set_messages {World} ms.
Arguments set_current_mode {World} name.
Arguments messages_append {World} m.
Arguments sidebar_buttons {World} ev names.
Arguments script {World} create ev.
Arguments run {World} create ev.
Arguments run_all {World} create evs st.

(* ================================================================== *)
(** * A scripted client

    A client whose state is the list of outcomes it will still produce,
    one for each call, whatever the request.  When the list is used up it
    raises. *)

Definition scripted (r : request) (w : list outcome) : outcome * list outcome :=
  match w with
  | [] => (Failed "connection refused", [])
  | o :: w' => (o, w')
  end.

(* ================================================================== *)
(** * Vocabulary of the properties *)

(** [sub] occurs in [s]. *)
Definition substring_of (sub s : string) : Prop :=
  exists p q, s = p ++ sub ++ q.

(** [c] is [d], or [c] is the upper-case letter of [d]. *)
Definition same_letter (c d : ascii) : bool :=
  Ascii.eqb c d
  || ((65 <=? N_of_ascii c) && (N_of_ascii c <=? 90)
      && (N_of_ascii c + 32 =? N_of_ascii d))%N.

(** [w] is [pat] written in some mixture of upper and lower case. *)
Fixpoint case_variant (w pat : string) : bool :=
  match w, pat with
  | EmptyString, EmptyString => true
  | String c w', String d pat' => same_letter c d && case_variant w' pat'
  | _, _ => false
  end.

(** [pat] occurs in [s] in some mixture of upper and lower case. *)
Definition substring_nocase (pat s : string) : Prop :=
  exists p w q, s = p ++ w ++ q /\ case_variant w pat = true.

(** The candidates of [ms] are attempted in order from [st] and every
    attempt raises: the exceptions raised, in order, and the session
    after the last attempt.  [None] when some attempt returns. *)
Fixpoint failures {World : Type} (create : request -> World -> outcome * World)
         (system_prompt user_input : string) (ms : list string)
         (st : session_state World) : option (list exn * session_state World) :=
  match ms with
  | [] => Some ([], st)
  | m :: ms' =>
      match attempt create system_prompt user_input m st with
      | (Raised e, st1) =>
          match failures create system_prompt user_input ms' st1 with
          | Some (errs, st2) => Some (e :: errs, st2)
          | None => None
          end
      | (Returned _, _) => None
      end
  end.

(** The session [st] after the client has moved to [w] and the requests
    [rs] have been sent. *)
Definition after_requests {World : Type} (st : session_state World)
           (w : World) (rs : list request) : session_state World :=
  {| messages := messages st;
     current_mode := current_mode st;
     client := w;
     sent := sent st ++ rs |}.

(** The session [st] with the transcript [ms]. *)
Definition with_messages {World : Type} (st : session_state World)
           (ms : list message) : session_state World :=
  {| messages := ms;
     current_mode := current_mode st;
     client := client st;
     sent := sent st |}.

(** The session [st] in the mode [name]. *)
Definition with_mode {World : Type} (st : session_state World)
           (name : string) : session_state World :=
  {| messages := messages st;
     current_mode := name;
     client := client st;
     sent := sent st |}.

(** The current mode is one of the registry. *)
Definition mode_ok {World : Type} (st : session_state World) : Prop :=
  In (current_mode st) (dict_keys MODE_PROMPTS).

Definition user_turn (prompt : string) : message :=
  {| role := "user"; content := Str prompt |}.

Definition assistant_turn (response : value) : message :=
  {| role := "assistant"; content := response |}.

(** The outcome has the shape the code expects of the provider: it is
    not a completion whose first choice has the content [None]. *)
Definition str_content (o : outcome) : bool :=
  match o with
  | Completed c =>
      match choices c with
      | NoneV :: _ => false
      | _ => true
      end
  | Failed _ => true
  end.

(** A transient pattern occurs in [msg] (line 114). *)
Definition transient (msg : string) : Prop :=
  substring_of "model_pending_deploy" msg
  \/ substring_of "not ready for inference" msg.

(** An authentication pattern occurs in [msg], in any mixture of cases
    (line 116). *)
Definition auth_failure (msg : string) : Prop :=
  substring_nocase "authentication" msg
  \/ substring_nocase "unauthorized" msg.

(** The texts for which the script calls [get_response]: the non-empty
    submitted texts, oldest first. *)
Fixpoint submitted (evs : list interaction) : list string :=
  match evs with
  | [] => []
  | Submit prompt :: evs' =>
      if String.eqb prompt "" then submitted evs' else prompt :: submitted evs'
  | _ :: evs' => submitted evs'
  end.



(** The shape of a request of the page: a prompt of the registry, a
    submitted text among [texts], a candidate model. *)
Definition page_request (texts : list string) (r : request) : Prop :=
  exists (name : string) (cfg : mode_config) (text m : string),
    In (name, cfg) MODE_PROMPTS
    /\ In text texts
    /\ In m models_to_try
    /\ r = chat_request (system_prompt cfg) text m.


(* ================================================================== *)
(** * The page from its first line: token, session keys, client

    Lines 10-14 and 41-56 run before the sidebar in every run.  Here
    [st.session_state] is the store Streamlit keeps between runs, in
    which a key may be absent.  [connect] is the constructor
    [InferenceClient(api_key=...)], outside the repository.
    [stored_sent] is the record of the requests sent, as [sent] is. *)

Record store (World : Type) : Type := {
  stored_messages : option (list message);
  stored_mode : option string;
  stored_client : option World;
  stored_sent : list request
}.

Arguments stored_messages {World} s.
Arguments stored_mode {World} s.
Arguments stored_client {World} s.
Arguments stored_sent {World} s.
Arguments Build_store {World}.

(** The store of a browser session that has not run the script yet. *)
Definition empty_store {World : Type} : store World :=
  {| stored_messages := None;
     stored_mode := None;
     stored_client := None;
     stored_sent := [] |}.

Definition store_of {World : Type} (st : session_state World) : store World :=
  {| stored_messages := Some (messages st);
     stored_mode := Some (current_mode st);
     stored_client := Some (client st);
     stored_sent := sent st |}.

(** One run of the whole file.  [HF_TOKEN] is [os.getenv("HF_TOKEN", None)].
    [st.stop()] ends the run and keeps what the run has stored. *)
Definition page {World : Type}
           (connect : string -> result World)
           (create : request -> World -> outcome * World)
           (HF_TOKEN : option string) (ev : interaction)
           (s : store World) : store World :=
  match HF_TOKEN with
  | None => s                                   (* lines 12-14 *)
  | Some token =>
      if negb (truthy (Some token)) then s      (* lines 12-14 *)
      else
        let ms := match stored_messages s with  (* lines 41-42 *)
                  | Some ms => ms
                  | None => []
                  end in
        let md := match stored_mode s with      (* lines 44-45 *)
                  | Some md => md
                  | None => "General Chat"
                  end in
        let proceed (w : World) : store World :=
          store_of (snd (run create ev
                           {| messages := ms;
                              current_mode := md;
                              client := w;
                              sent := stored_sent s |})) in
        match stored_client s with              (* lines 47-56 *)
        | Some w => proceed w
        | None =>
            match connect token with
            | Returned w => proceed w
            | Raised _ =>
                {| stored_messages := Some ms;
                   stored_mode := Some md;
                   stored_client := None;
                   stored_sent := stored_sent s |}
            end
        end
  end.

(** The store after a sequence of runs, oldest first. *)
Fixpoint page_all {World : Type}
         (connect : string -> result World)
         (create : request -> World -> outcome * World)
         (HF_TOKEN : option string) (evs : list interaction)
         (s : store World) : store World :=
  match evs with
  | [] => s
  | ev :: evs' => page_all connect create HF_TOKEN evs' (page connect create HF_TOKEN ev s)
  end.

(** A client without memory: it answers for one model name and refuses
    the others; its state counts the calls. *)
Definition only_model (name answer : string) (r : request) (calls : nat) : outcome * nat :=
  (if String.eqb (model r) name
   then Completed {| choices := [Str answer] |}
   else Failed "model_pending_deploy",
   S calls).

(* ================================================================== *)
(** * Strings: searching and lower-casing *)

Module PyStrFacts.
Import PyStr.

Lemma prefix_app (sub s : string) :
  String.prefix sub s = true <-> exists q, s = sub ++ q.
Proof.
  revert s; induction sub as [|c sub IH]; intros s; simpl.
  - split; [intros _; now exists s | intros _; now destruct s].
  - destruct s as [|d s]; simpl.
    + split; [discriminate | intros [q Hq]; discriminate].
    + destruct (ascii_dec c d) as [->|Hcd].
      * rewrite IH. split; intros [q Hq]; exists q.
        -- now subst.
        -- now inversion Hq.
      * split; [discriminate | intros [q Hq]; inversion Hq; congruence].
Qed.

Lemma contains_unfold (sub s : string) :
  contains sub s =
  if String.prefix sub s then true
  else match s with
       | EmptyString => false
       | String _ s' => contains sub s'
       end.
Proof. destruct s; reflexivity. Qed.

Lemma contains_true (sub s : string) :
  contains sub s = true <-> substring_of sub s.
Proof.
  induction s as [|d s IH]; rewrite contains_unfold;
    destruct (String.prefix sub _) eqn:E.
  - split; [intros _ | reflexivity].
    apply prefix_app in E as [q Hq]. exists "", q. exact Hq.
  - split; [discriminate|]. intros [p [q Hpq]].
    destruct p; [|discriminate]. simpl in Hpq.
    assert (String.prefix sub "" = true) by (apply prefix_app; now exists q).
    congruence.
  - split; [intros _ | reflexivity].
    apply prefix_app in E as [q Hq]. exists "", q. exact Hq.
  - rewrite IH. split.
    + intros [p [q Hpq]]. exists (String d p), q. simpl. now rewrite Hpq.
    + intros [p [q Hpq]]. destruct p as [|c p].
      * simpl in Hpq.
        assert (String.prefix sub (String d s) = true)
          by (apply prefix_app; now exists q).
        congruence.
      * simpl in Hpq. inversion Hpq. now exists p, q.
Qed.

Lemma contains_false (sub s : string) :
  contains sub s = false <-> ~ substring_of sub s.
Proof.
  rewrite <- contains_true. destruct (contains sub s); split; congruence.
Qed.

Lemma lower_app (a b : string) : lower (a ++ b) = lower a ++ lower b.
Proof. induction a; simpl; congruence. Qed.

Lemma lower_split (s a b : string) :
  lower s = a ++ b -> exists s1 s2, s = s1 ++ s2 /\ lower s1 = a /\ lower s2 = b.
Proof.
  revert s; induction a as [|c a IH]; intros s H; simpl in H.
  - now exists "", s.
  - destruct s as [|d s]; [discriminate|]. simpl in H. inversion H as [[Hc Ha]].
    destruct (IH _ Ha) as [s1 [s2 [-> [H1 H2]]]].
    exists (String d s1), s2. simpl. now rewrite H1, Hc.
Qed.

Lemma same_letter_lower (c : ascii) : same_letter c (lower_char c) = true.
Proof.
  unfold same_letter, lower_char, is_ascii_upper.
  destruct ((65 <=? N_of_ascii c) && (N_of_ascii c <=? 90))%N eqn:E; simpl.
  - apply orb_true_iff; right.
    apply andb_true_iff in E as [E1 E2].
    apply N.leb_le in E2.
    rewrite N_ascii_embedding by lia. apply N.eqb_refl.
  - now rewrite Ascii.eqb_refl.
Qed.

Lemma lower_same_letter (c d : ascii) :
  same_letter c d = true -> lower_char d = d -> lower_char c = d.
Proof.
  unfold same_letter. intros H Hd.
  apply orb_true_iff in H as [H|H].
  - apply Ascii.eqb_eq in H. now subst.
  - apply andb_true_iff in H as [H H3].
    unfold lower_char, is_ascii_upper. rewrite H.
    apply N.eqb_eq in H3. rewrite H3. apply ascii_N_embedding.
Qed.

Lemma case_variant_lower (w : string) : case_variant w (lower w) = true.
Proof.
  induction w as [|c w IH]; simpl; [reflexivity|].
  now rewrite same_letter_lower, IH.
Qed.

Lemma lower_case_variant (w pat : string) :
  case_variant w pat = true -> lower pat = pat -> lower w = pat.
Proof.
  revert pat; induction w as [|c w IH]; intros [|d pat] H Hp;
    simpl in *; try discriminate; [reflexivity|].
  apply andb_true_iff in H as [H1 H2]. inversion Hp as [[Hd Hpat]].
  rewrite Hd, Hpat.
  f_equal; [now apply lower_same_letter | now apply IH].
Qed.

(** Searching the lower-cased text for a lower-case pattern finds the
    pattern written in any mixture of cases, and nothing else. *)
Lemma contains_lower (pat s : string) :
  lower pat = pat ->
  (contains pat (lower s) = true <-> substring_nocase pat s).
Proof.
  intros Hpat. rewrite contains_true. split.
  - intros [p [q H]].
    apply lower_split in H as [s1 [s23 [-> [H1 H23]]]].
    apply lower_split in H23 as [s2 [s3 [-> [H2 H3]]]].
    exists s1, s2, s3. split; [reflexivity|].
    rewrite <- H2. apply case_variant_lower.
  - intros [p [w [q [-> Hw]]]].
    exists (lower p), (lower q).
    rewrite !lower_app. now rewrite (lower_case_variant _ _ Hw Hpat).
Qed.

End PyStrFacts.

(* ================================================================== *)
(** * The registry *)

Lemma lookup_unknown (mode : string) :
  ~ In mode (dict_keys MODE_PROMPTS) -> lookup mode = Raised (KeyError mode).
Proof.
  unfold lookup. induction MODE_PROMPTS as [|[k v] d IH]; simpl; intros H.
  - reflexivity.
  - destruct (String.eqb_spec k mode) as [->|Hne].
    + exfalso; apply H; now left.
    + apply IH. intros Hin; apply H; now right.
Qed.

Lemma lookup_known (mode : string) :
  In mode (dict_keys MODE_PROMPTS) -> exists cfg, lookup mode = Returned cfg.
Proof.
  unfold lookup. induction MODE_PROMPTS as [|[k v] d IH]; simpl; intros H.
  - contradiction.
  - destruct (String.eqb_spec k mode) as [->|Hne].
    + now exists v.
    + apply IH. destruct H; [contradiction | assumption].
Qed.

(* ================================================================== *)
(** * The fallback loop *)

Section Dispatcher.

Context {World : Type}.
Variable create : request -> World -> outcome * World.

Abbreviation state := (session_state World).

Lemma after_requests_twice (st : state) (w1 w2 : World) (r1 r2 : list request) :
  after_requests (after_requests st w1 r1) w2 r2 = after_requests st w2 (r1 ++ r2).
Proof. unfold after_requests; simpl. now rewrite <- List.app_assoc. Qed.

Lemma after_requests_nil (st : state) : after_requests st (client st) [] = st.
Proof. destruct st; unfold after_requests; simpl. now rewrite app_nil_r. Qed.

(** One attempt sends exactly one request, and leaves the transcript
    and the mode alone. *)
Lemma attempt_unfold (sp up m : string) (st : state) :
  attempt create sp up m st =
  let (o, w) := create (chat_request sp up m) (client st) in
  let st' := after_requests st w [chat_request sp up m] in
  match o with
  | Completed c =>
      match choices c with
      | [] => (Raised IndexError, st')
      | x :: _ => (Returned x, st')
      end
  | Failed msg => (Raised (ClientError msg), st')
  end.
Proof.
  unfold attempt, bind, chat_completions_create, first_choice, after_requests.
  destruct (create _ _) as [[c|msg] w]; [|reflexivity].
  destruct (choices c); reflexivity.
Qed.

Lemma attempt_state (sp up m : string) (st st' : state) (r : result value) :
  attempt create sp up m st = (r, st') ->
  st' = after_requests st (client st') [chat_request sp up m].
Proof.
  rewrite attempt_unfold.
  destruct (create _ _) as [[c|msg] w]; [destruct (choices c)|];
    intros H; inversion H; reflexivity.
Qed.

Lemma failures_state (sp up : string) (ms : list string) :
  forall (st st' : state) (errs : list exn),
    failures create sp up ms st = Some (errs, st') ->
    st' = after_requests st (client st') (map (chat_request sp up) ms)
    /\ length errs = length ms.
Proof.
  induction ms as [|m ms IH]; simpl; intros st st' errs H.
  - inversion H; subst. now rewrite after_requests_nil.
  - destruct (attempt create sp up m st) as [[x|e] st1] eqn:Ha; [discriminate|].
    destruct (failures create sp up ms st1) as [[errs1 st2]|] eqn:Hf; [|discriminate].
    inversion H; subst. apply IH in Hf as [Hst Hlen].
    apply attempt_state in Ha. split; [|simpl; now rewrite Hlen].
    rewrite Hst at 1. rewrite Ha. now rewrite after_requests_twice.
Qed.

Lemma for_model_in_cons (models rest : list string) (m sp up : string) (st : state) :
  for_model_in create models (m :: rest) sp up st =
  match attempt create sp up m st with
  | (Returned x, st1) => (Returned x, st1)
  | (Raised e, st1) =>
      if negb (String.eqb m (last_model models))
      then for_model_in create models rest sp up st1
      else (Raised e, st1)
  end.
Proof.
  simpl. unfold try_except, bind.
  destruct (attempt create sp up m st) as [[x|e] st1]; [reflexivity|].
  destruct (negb _); reflexivity.
Qed.

(** Early return: the candidates before the first success all fail and
    none of them is the last of the list. *)
Lemma for_model_in_success (models pre post : list string) (m sp up : string)
      (c : value) :
  Forall (fun x => x <> last_model models) pre ->
  forall (st st1 st2 : state) (errs : list exn),
    failures create sp up pre st = Some (errs, st1) ->
    attempt create sp up m st1 = (Returned c, st2) ->
    for_model_in create models (pre ++ m :: post) sp up st = (Returned c, st2).
Proof.
  induction 1 as [|p pre Hp Hpre IH]; intros st st1 st2 errs Hf Ha.
  - simpl in Hf. inversion Hf; subst. simpl app.
    now rewrite for_model_in_cons, Ha.
  - simpl in Hf. simpl app. rewrite for_model_in_cons.
    destruct (attempt create sp up p st) as [[x|e] st0]; [discriminate|].
    destruct (failures create sp up pre st0) as [[errs1 st']|] eqn:Hf1; [|discriminate].
    inversion Hf; subst.
    apply String.eqb_neq in Hp. rewrite Hp. simpl.
    eapply IH; eassumption.
Qed.

(** Exhaustion: every candidate fails and only the last one raises out
    of the loop, with its own exception. *)
Lemma for_model_in_exhausted (models pre : list string) (sp up : string) :
  Forall (fun x => x <> last_model models) pre ->
  forall (st st' : state) (errs : list exn) (e : exn),
    failures create sp up (pre ++ [last_model models]) st = Some ((errs ++ [e])%list, st') ->
    for_model_in create models (pre ++ [last_model models]) sp up st = (Raised e, st').
Proof.
  induction 1 as [|p pre Hp Hpre IH]; intros st st' errs e Hf.
  - simpl in Hf. simpl app. rewrite for_model_in_cons.
    destruct (attempt create sp up _ st) as [[x|e0] st0]; [discriminate|].
    inversion Hf as [[He Hst]].
    rewrite String.eqb_refl. simpl.
    destruct errs as [|e1 errs]; simpl in He.
    + now inversion He.
    + inversion He as [[H1 H2]]. now destruct errs.
  - simpl in Hf. simpl app. rewrite for_model_in_cons.
    destruct (attempt create sp up p st) as [[x|e0] st0]; [discriminate|].
    destruct (failures create sp up _ st0) as [[errs1 st1]|] eqn:Hf1; [|discriminate].
    inversion Hf as [[He Hst]]. subst st1.
    apply String.eqb_neq in Hp. rewrite Hp. simpl.
    destruct errs as [|e1 errs]; simpl in He.
    + inversion He; subst.
      apply failures_state in Hf1 as [_ Hlen].
      rewrite length_app in Hlen. simpl in Hlen. lia.
    + inversion He; subst. eapply IH. exact Hf1.
Qed.

(** The loop never runs off its end when the candidates still to try
    end with the last model of the list: a value it returns is the value
    some attempt returned, the first content of a completion. *)
Lemma for_model_in_returned (models : list string) (sp up : string) :
  forall (rest : list string) (st st' : state) (v : value),
    rest <> [] ->
    last rest "" = last_model models ->
    for_model_in create models rest sp up st = (Returned v, st') ->
    exists (m : string) (st0 : state) (comp : completion) (w : World) (cs : list value),
      create (chat_request sp up m) (client st0) = (Completed comp, w)
      /\ choices comp = v :: cs.
Proof.
  induction rest as [|m rest IH]; intros st st' v Hne Hlast H; [congruence|].
  rewrite for_model_in_cons, attempt_unfold in H.
  destruct (create (chat_request sp up m) (client st)) as [[comp|msg] w] eqn:Hc.
  - destruct (choices comp) as [|x cs] eqn:Hch.
    + destruct rest as [|m' rest].
      * simpl in Hlast. subst m. rewrite String.eqb_refl in H. discriminate H.
      * destruct (negb _); [|discriminate H].
        eapply IH; [discriminate | exact Hlast | exact H].
    + inversion H; subst. now exists m, st, comp, w, cs.
  - destruct rest as [|m' rest].
    + simpl in Hlast. subst m. rewrite String.eqb_refl in H. discriminate H.
    + destruct (negb _); [|discriminate H].
      eapply IH; [discriminate | exact Hlast | exact H].
Qed.

(** The requests of one walk of the loop: the same request for a
    prefix of the candidates, in order. *)
Lemma for_model_in_sent (models : list string) (sp up : string) :
  forall (rest : list string) (st st' : state) (r : result value),
    for_model_in create models rest sp up st = (r, st') ->
    exists k,
      k <= length rest /\ (rest <> [] -> 1 <= k) /\
      st' = after_requests st (client st') (map (chat_request sp up) (firstn k rest)).
Proof.
  induction rest as [|m rest IH]; intros st st' r H.
  - simpl in H. inversion H; subst. exists 0. simpl.
    split; [lia | split; [intros Hn; now contradiction Hn |]].
    now rewrite after_requests_nil.
  - rewrite for_model_in_cons in H.
    destruct (attempt create sp up m st) as [[x|e] st0] eqn:Ha;
      apply attempt_state in Ha.
    + inversion H; subst. exists 1. simpl.
      split; [lia | split; [intros _; lia | exact Ha]].
    + destruct (negb _).
      * apply IH in H as [k [Hk [_ Hst]]]. exists (S k). simpl.
        split; [lia | split; [intros _; lia |]].
        rewrite Hst at 1. rewrite Ha. now rewrite after_requests_twice.
      * inversion H; subst. exists 1. simpl.
        split; [lia | split; [intros _; lia | exact Ha]].
Qed.

(** ** [get_response] *)

Lemma get_response_unfold (up mode : string) (st : state) :
  get_response create up mode st =
  match lookup mode with
  | Raised e => (Returned (Str (classify (str e))), st)
  | Returned cfg =>
      match for_model_in create models_to_try models_to_try (system_prompt cfg) up st with
      | (Returned v, st') => (Returned v, st')
      | (Raised e, st') => (Returned (Str (classify (str e))), st')
      end
  end.
Proof.
  unfold get_response, try_except, bind, lift, classify, ret.
  destruct (lookup mode) as [cfg|e].
  - destruct (for_model_in _ _ _ _ _ _) as [[v|e] st']; [reflexivity|].
    destruct (_ || _); [reflexivity|]. destruct (_ || _); reflexivity.
  - destruct (_ || _); [reflexivity|]. destruct (_ || _); reflexivity.
Qed.

(** Every path of [get_response] ends in a [return]: the content an
    attempt returned, or a classified message. *)
Lemma get_response_returns (up mode : string) (st : state) :
  exists (v : value) (st' : state),
    get_response create up mode st = (Returned v, st').
Proof.
  rewrite get_response_unfold.
  destruct (lookup mode) as [cfg|e]; [|eauto].
  destruct (for_model_in create models_to_try models_to_try (system_prompt cfg) up st)
    as [[v|e] st']; eauto.
Qed.

Lemma models_to_try_split (pre post : list string) (m : string) :
  models_to_try = (pre ++ m :: post)%list ->
  Forall (fun x => x <> last_model models_to_try) pre.
Proof.
  unfold models_to_try. intros H.
  destruct pre as [|a [|b [|c [|d pre]]]]; simpl in H; inversion H as [Heq]; subst;
    try (destruct pre; discriminate);
    repeat constructor; vm_compute; discriminate.
Qed.

Lemma models_to_try_last :
  models_to_try = (removelast models_to_try ++ [last_model models_to_try])%list.
Proof. reflexivity. Qed.

(** When the mode is known and all candidates fail, the exception of
    the last attempt is the one classified. *)
Lemma get_response_exhausted (up mode : string) (cfg : mode_config)
      (st st' : state) (errs : list exn) (e : exn) :
  lookup mode = Returned cfg ->
  failures create (system_prompt cfg) up models_to_try st = Some ((errs ++ [e])%list, st') ->
  get_response create up mode st = (Returned (Str (classify (str e))), st').
Proof.
  intros Hl Hf. rewrite get_response_unfold, Hl.
  pose proof (for_model_in_exhausted models_to_try (removelast models_to_try)
                (system_prompt cfg) up
                (models_to_try_split _ _ _ models_to_try_last)
                st st' errs e Hf) as Hx.
  change (removelast models_to_try ++ [last_model models_to_try])%list
    with models_to_try in Hx.
  now rewrite Hx.
Qed.

End Dispatcher.

(* ================================================================== *)
(** * Classification of the final error *)

Lemma string_app_nil_r (s : string) : s ++ "" = s.
Proof. induction s; simpl; congruence. Qed.

Lemma classify_transient (msg : string) :
  substring_of "model_pending_deploy" msg \/ substring_of "not ready for inference" msg ->
  classify msg = WARMING_UP.
Proof.
  intros H. unfold classify.
  destruct H as [H|H]; apply PyStrFacts.contains_true in H; rewrite H;
    [reflexivity | now rewrite orb_true_r].
Qed.

Lemma classify_auth (msg : string) :
  ~ substring_of "model_pending_deploy" msg ->
  ~ substring_of "not ready for inference" msg ->
  substring_nocase "authentication" msg \/ substring_nocase "unauthorized" msg ->
  classify msg = AUTH_ERROR.
Proof.
  intros H1 H2 H. unfold classify.
  apply PyStrFacts.contains_false in H1, H2. rewrite H1, H2. simpl orb. cbv iota.
  destruct H as [H|H]; apply PyStrFacts.contains_lower in H; try reflexivity;
    rewrite H; [reflexivity | now rewrite orb_true_r].
Qed.

Lemma classify_generic (msg : string) :
  ~ substring_of "model_pending_deploy" msg ->
  ~ substring_of "not ready for inference" msg ->
  ~ substring_nocase "authentication" msg ->
  ~ substring_nocase "unauthorized" msg ->
  classify msg = GENERIC_PREFIX ++ msg.
Proof.
  intros H1 H2 H3 H4. unfold classify.
  apply PyStrFacts.contains_false in H1, H2. rewrite H1, H2. simpl orb. cbv iota.
  destruct (PyStr.contains "authentication" (PyStr.lower msg)) eqn:E3.
  { exfalso. apply H3. now apply PyStrFacts.contains_lower. }
  destruct (PyStr.contains "unauthorized" (PyStr.lower msg)) eqn:E4.
  { exfalso. apply H4. now apply PyStrFacts.contains_lower. }
  reflexivity.
Qed.

(* ================================================================== *)
(** * Properties of the dispatcher *)

(** C1.  Let the mode be known and split the candidate list as
    [pre ++ m :: post].  If every attempt for [pre] raises (whatever the
    exceptions [errs]) and the client answers the request for [m] with a
    completion whose first choice has content [c] (a [str], or [None]),
    then [get_response] returns exactly [c], and the requests it has sent are the ones for
    [pre] and for [m], in order: nothing is sent for [post]. *)
Theorem dispatch_first_success
        {World : Type} (create : request -> World -> outcome * World)
        (up mode : string) (cfg : mode_config)
        (pre post : list string) (m : string)
        (st st1 : session_state World) (errs : list exn)
        (comp : completion) (w2 : World) (c : value) (cs : list value) :
  lookup mode = Returned cfg ->
  models_to_try = (pre ++ m :: post)%list ->
  failures create (system_prompt cfg) up pre st = Some (errs, st1) ->
  create (chat_request (system_prompt cfg) up m) (client st1) = (Completed comp, w2) ->
  choices comp = c :: cs ->
  get_response create up mode st =
  (Returned c,
   after_requests st w2 (map (chat_request (system_prompt cfg) up) (pre ++ [m]))).
Proof.
  intros Hl Hsplit Hf Hc Hch.
  rewrite get_response_unfold, Hl.
  pose proof Hf as Hst1. apply failures_state in Hst1 as [Hst1 _].
  assert (Ha : attempt create (system_prompt cfg) up m st1 =
               (Returned c, after_requests st1 w2 [chat_request (system_prompt cfg) up m])).
  { rewrite attempt_unfold, Hc, Hch. reflexivity. }
  assert (Hloop : for_model_in create models_to_try (pre ++ m :: post)
                    (system_prompt cfg) up st =
                  (Returned c,
                   after_requests st1 w2 [chat_request (system_prompt cfg) up m])).
  { eapply for_model_in_success;
      [eapply models_to_try_split; exact Hsplit | exact Hf | exact Ha]. }
  rewrite <- Hsplit in Hloop. rewrite Hloop.
  rewrite Hst1, after_requests_twice, map_app. reflexivity.
Qed.

(** C2, as the code has it.  Whatever the user text, the mode name, the
    session and the client, [get_response] returns a value and does not
    raise.  The value is a [str] whenever every outcome of the client
    has the expected shape, that is, no completion has [None] as the
    content of its first choice: line 105 returns that content as it
    is. *)
Theorem dispatch_total
        {World : Type} (create : request -> World -> outcome * World)
        (up mode : string) (st : session_state World) :
  (exists (v : value) (st' : session_state World),
      get_response create up mode st = (Returned v, st'))
  /\ ((forall r w, str_content (fst (create r w)) = true) ->
      exists (s : string) (st' : session_state World),
        get_response create up mode st = (Returned (Str s), st')).
Proof.
  split.
  - rewrite get_response_unfold.
    destruct (lookup mode) as [cfg|e]; [|eauto].
    destruct (for_model_in create models_to_try models_to_try (system_prompt cfg) up st)
      as [[v|e] st']; eauto.
  - intros Hshape. rewrite get_response_unfold.
    destruct (lookup mode) as [cfg|e]; [|eauto].
    destruct (for_model_in create models_to_try models_to_try (system_prompt cfg) up st)
      as [[v|e] st'] eqn:Hloop; [|eauto].
    apply for_model_in_returned in Hloop; [|discriminate|reflexivity].
    destruct Hloop as [m [st0 [comp [w [cs [Hc Hch]]]]]].
    specialize (Hshape (chat_request (system_prompt cfg) up m) (client st0)).
    rewrite Hc in Hshape. simpl in Hshape. rewrite Hch in Hshape.
    destruct v as [s|]; [now exists s, st' | discriminate Hshape].
Qed.

(** C2 as stated fails: when the client answers with a completion whose
    first choice has the content [None], [get_response] returns [None],
    which is not a string. *)
Lemma dispatch_returns_none :
  fst (get_response scripted "hello" "General Chat"
         (initial [Completed {| choices := [NoneV] |}]))
  = Returned NoneV
  /\ ~ (exists s : string,
          fst (get_response scripted "hello" "General Chat"
                 (initial [Completed {| choices := [NoneV] |}]))
          = Returned (Str s)).
Proof.
  split; [reflexivity|].
  intros [s H]. vm_compute in H. discriminate H.
Qed.

(** C3.  If the mode is known, all four candidates fail, and the message
    of the last exception contains ["model_pending_deploy"] or
    ["not ready for inference"], then [get_response] returns the
    constant [WARMING_UP], whatever the user text, the mode and the rest
    of the message. *)
Theorem dispatch_transient
        {World : Type} (create : request -> World -> outcome * World)
        (up mode : string) (cfg : mode_config)
        (st st' : session_state World) (errs : list exn) (e : exn) :
  lookup mode = Returned cfg ->
  failures create (system_prompt cfg) up models_to_try st = Some ((errs ++ [e])%list, st') ->
  substring_of "model_pending_deploy" (str e)
  \/ substring_of "not ready for inference" (str e) ->
  get_response create up mode st = (Returned (Str WARMING_UP), st').
Proof.
  intros Hl Hf Hm.
  rewrite (get_response_exhausted create up mode cfg st st' errs e Hl Hf).
  now rewrite classify_transient.
Qed.

(** C4.  If the mode is known, all four candidates fail, and the message
    of the last exception contains ["authentication"] or
    ["unauthorized"] in some mixture of upper and lower case, and
    neither transient pattern, then [get_response] returns
    [AUTH_ERROR]. *)
Theorem dispatch_auth
        {World : Type} (create : request -> World -> outcome * World)
        (up mode : string) (cfg : mode_config)
        (st st' : session_state World) (errs : list exn) (e : exn) :
  lookup mode = Returned cfg ->
  failures create (system_prompt cfg) up models_to_try st = Some ((errs ++ [e])%list, st') ->
  substring_nocase "authentication" (str e) \/ substring_nocase "unauthorized" (str e) ->
  ~ substring_of "model_pending_deploy" (str e) ->
  ~ substring_of "not ready for inference" (str e) ->
  get_response create up mode st = (Returned (Str AUTH_ERROR), st').
Proof.
  intros Hl Hf Ha Ht1 Ht2.
  rewrite (get_response_exhausted create up mode cfg st st' errs e Hl Hf).
  now rewrite classify_auth.
Qed.

(** C5.  If the mode is known, all four candidates fail, and the message
    of the last exception contains neither transient pattern nor, in any
    mixture of cases, an authentication pattern, then [get_response]
    returns ["Error generating response: "] followed by that message,
    so the message occurs verbatim in the returned text. *)
Theorem dispatch_generic
        {World : Type} (create : request -> World -> outcome * World)
        (up mode : string) (cfg : mode_config)
        (st st' : session_state World) (errs : list exn) (e : exn) :
  lookup mode = Returned cfg ->
  failures create (system_prompt cfg) up models_to_try st = Some ((errs ++ [e])%list, st') ->
  ~ substring_of "model_pending_deploy" (str e) ->
  ~ substring_of "not ready for inference" (str e) ->
  ~ substring_nocase "authentication" (str e) ->
  ~ substring_nocase "unauthorized" (str e) ->
  get_response create up mode st =
  (Returned (Str ("Error generating response: " ++ str e)), st')
  /\ substring_of (str e) ("Error generating response: " ++ str e).
Proof.
  intros Hl Hf H1 H2 H3 H4. split.
  - rewrite (get_response_exhausted create up mode cfg st st' errs e Hl Hf).
    now rewrite classify_generic.
  - exists "Error generating response: ", "". now rewrite string_app_nil_r.
Qed.

(** C10.  If the mode is known, all four candidates fail, and the
    message of the last exception contains a transient pattern and also
    an authentication pattern, then [get_response] returns [WARMING_UP]:
    the transient test comes first. *)
Theorem dispatch_transient_before_auth
        {World : Type} (create : request -> World -> outcome * World)
        (up mode : string) (cfg : mode_config)
        (st st' : session_state World) (errs : list exn) (e : exn) :
  lookup mode = Returned cfg ->
  failures create (system_prompt cfg) up models_to_try st = Some ((errs ++ [e])%list, st') ->
  (substring_of "model_pending_deploy" (str e)
   \/ substring_of "not ready for inference" (str e)) ->
  (substring_nocase "authentication" (str e)
   \/ substring_nocase "unauthorized" (str e)) ->
  get_response create up mode st = (Returned (Str WARMING_UP), st')
  /\ WARMING_UP <> AUTH_ERROR.
Proof.
  intros Hl Hf Ht _. split.
  - rewrite (get_response_exhausted create up mode cfg st st' errs e Hl Hf).
    now rewrite classify_transient.
  - vm_compute. discriminate.
Qed.

(** C7.  For a known mode, the requests one call of [get_response]
    sends are the request [chat_request] for the first [k] candidates,
    [1 <= k <= 4], in order.  Each of them carries exactly the system
    message with the mode's prompt and then the user message with the
    user text, [max_tokens = 512], [temperature = 0.7], [top_p = 0.9];
    only the model name differs from one attempt to the next. *)
Theorem dispatch_requests
        {World : Type} (create : request -> World -> outcome * World)
        (up mode : string) (cfg : mode_config) (st : session_state World) :
  lookup mode = Returned cfg ->
  exists k : nat,
    1 <= k <= 4 /\
    sent (snd (get_response create up mode st)) =
    (sent st ++ map (chat_request (system_prompt cfg) up) (firstn k models_to_try))%list /\
    forall m : string,
      let r := chat_request (system_prompt cfg) up m in
      model r = m /\
      msgs r = [ {| role := "system"; content := Str (system_prompt cfg) |};
                 {| role := "user"; content := Str up |} ] /\
      max_tokens r = 512%Z /\
      temperature r = 0.7%float /\
      top_p r = 0.9%float.
Proof.
  intros Hl. rewrite get_response_unfold, Hl.
  destruct (for_model_in create models_to_try models_to_try (system_prompt cfg) up st)
    as [r st'] eqn:Hloop.
  apply for_model_in_sent in Hloop as [k [Hk [Hpos Hst]]].
  exists k. split; [|split].
  - split; [apply Hpos; discriminate | exact Hk].
  - destruct r; simpl; rewrite Hst; reflexivity.
  - intros m. repeat split.
Qed.

(** C6.  The registry has exactly the four modes, each once; looking up
    the name of an entry returns the prompt and the icon of that entry;
    looking up any other string raises [KeyError]. *)
Theorem registry_lookup :
  dict_keys MODE_PROMPTS =
  ["General Chat"; "Grammar Checker"; "Paragraph Writer"; "Python Helper"]
  /\ (forall (name : string) (cfg : mode_config),
         In (name, cfg) MODE_PROMPTS -> lookup name = Returned cfg)
  /\ (forall name : string,
         ~ In name (dict_keys MODE_PROMPTS) -> lookup name = Raised (KeyError name)).
Proof.
  split; [reflexivity | split].
  - intros name cfg H. unfold MODE_PROMPTS in H. simpl in H.
    destruct H as [H|[H|[H|[H|[]]]]]; inversion H; reflexivity.
  - exact lookup_unknown.
Qed.

(** C9, as the code has it.  For a mode name outside the registry
    [get_response] sends nothing and leaves the session as it was, does
    not raise, and returns the classification of the message of the
    [KeyError], which is [repr] of the mode name.  That is
    ["Error generating response: "] followed by the quoted name whenever
    the quoted name contains no transient pattern and, in any mixture of
    cases, no authentication pattern. *)
Theorem dispatch_unknown_mode
        {World : Type} (create : request -> World -> outcome * World)
        (up mode : string) (st : session_state World) :
  ~ In mode (dict_keys MODE_PROMPTS) ->
  get_response create up mode st = (Returned (Str (classify (PyStr.repr mode))), st)
  /\ (~ substring_of "model_pending_deploy" (PyStr.repr mode) ->
      ~ substring_of "not ready for inference" (PyStr.repr mode) ->
      ~ substring_nocase "authentication" (PyStr.repr mode) ->
      ~ substring_nocase "unauthorized" (PyStr.repr mode) ->
      classify (PyStr.repr mode) = "Error generating response: " ++ PyStr.repr mode).
Proof.
  intros H. split.
  - rewrite get_response_unfold, (lookup_unknown _ H). reflexivity.
  - apply classify_generic.
Qed.

(** C9 as stated fails: the mode name ["unauthorized"] is not in the
    registry, and [get_response] answers it with [AUTH_ERROR], which
    does not start with ["Error generating response: "]. *)
Lemma dispatch_unknown_mode_not_generic :
  ~ In "unauthorized" (dict_keys MODE_PROMPTS)
  /\ get_response scripted "hello" "unauthorized" (initial []) =
     (Returned (Str AUTH_ERROR), initial [])
  /\ ~ (exists rest : string, AUTH_ERROR = "Error generating response: " ++ rest).
Proof.
  split; [|split].
  - simpl. intros [H|[H|[H|[H|[]]]]]; discriminate.
  - vm_compute. reflexivity.
  - intros [rest H]. vm_compute in H. discriminate.
Qed.

(* ================================================================== *)
(** * The transcript *)

Section Transcript.

Context {World : Type}.
Variable create : request -> World -> outcome * World.

Abbreviation state := (session_state World).

Lemma with_mode_same (st : state) : with_mode st (current_mode st) = st.
Proof. now destruct st. Qed.

(** The dispatcher does not touch the transcript or the mode. *)
Lemma get_response_frame (up mode : string) (st st' : state) (r : result value) :
  get_response create up mode st = (r, st') ->
  messages st' = messages st /\ current_mode st' = current_mode st.
Proof.
  rewrite get_response_unfold.
  destruct (lookup mode) as [cfg|e].
  - destruct (for_model_in _ _ _ _ _ _) as [r0 st0] eqn:Hloop.
    apply for_model_in_sent in Hloop as [k [_ [_ Hst]]].
    intros H. assert (st' = st0) by (destruct r0; now inversion H). subst st'.
    rewrite Hst. now split.
  - intros H; inversion H; now split.
Qed.

(** The sidebar: a click on the button of a mode selects that mode,
    and nothing else changes. *)
Lemma sidebar_buttons_spec (ev : interaction) (names : list string) :
  forall st : state,
  exists md,
    sidebar_buttons ev names st = (Returned tt, with_mode st md)
    /\ (md = current_mode st \/ (In md names /\ ev = ClickMode md)).
Proof.
  induction names as [|n names IH]; intros st; simpl.
  - exists (current_mode st). rewrite with_mode_same. now split; [|left].
  - unfold bind.
    destruct (mode_button ev n) eqn:Hb.
    + destruct ev as [clicked| | |]; try discriminate.
      simpl in Hb. apply String.eqb_eq in Hb. subst clicked.
      unfold set_current_mode.
      destruct (IH (with_mode st n)) as [md [Hrun Hmd]].
      exists md. split; [exact Hrun|].
      right. destruct Hmd as [->|[Hin Hev]].
      * split; [now left | reflexivity].
      * split; [now right | exact Hev].
    + unfold ret.
      destruct (IH st) as [md [Hrun Hmd]].
      exists md. split; [exact Hrun|].
      destruct Hmd as [->|[Hin Hev]]; [now left | right; split; [now right | exact Hev]].
Qed.

Lemma script_idle (st : state) :
  mode_ok st -> script create NoInteraction st = (Returned Finished, st).
Proof.
  intros Hok. unfold script, bind.
  destruct (sidebar_buttons_spec NoInteraction (dict_keys MODE_PROMPTS) st)
    as [md [-> [->|[_ Hev]]]]; [|discriminate].
  rewrite with_mode_same. unfold get_state, lift.
  destruct (lookup_known _ Hok) as [cfg ->]. reflexivity.
Qed.

(** What one interaction does to a session whose mode is known. *)
Lemma run_spec (ev : interaction) (st : state) :
  mode_ok st ->
  match ev with
  | ClickMode _ =>
      exists md, In md (dict_keys MODE_PROMPTS)
                 /\ run create ev st = (Returned tt, with_mode st md)
  | ClickClear => run create ev st = (Returned tt, with_messages st [])
  | NoInteraction => run create ev st = (Returned tt, st)
  | Submit prompt =>
      if String.eqb prompt "" then run create ev st = (Returned tt, st)
      else
        exists (response : value) (st_d : state),
          get_response create prompt (current_mode st)
            (with_messages st (messages st ++ [user_turn prompt]))
          = (Returned response, st_d)
          /\ run create ev st =
             (Returned tt,
              with_messages st_d
                (messages st ++ [user_turn prompt; assistant_turn response]))
  end.
Proof.
  intros Hok. unfold run, bind.
  destruct ev as [name| |prompt|].
  - unfold script, bind.
    destruct (sidebar_buttons_spec (ClickMode name) (dict_keys MODE_PROMPTS) st)
      as [md [-> Hmd]].
    assert (Hin : In md (dict_keys MODE_PROMPTS))
      by (destruct Hmd as [->|[Hin _]]; [exact Hok | exact Hin]).
    exists md. split; [exact Hin|].
    unfold get_state, lift.
    destruct (lookup_known _ Hin) as [cfg Hcfg].
    simpl current_mode. rewrite Hcfg. reflexivity.
  - unfold script at 1. unfold bind.
    destruct (sidebar_buttons_spec ClickClear (dict_keys MODE_PROMPTS) st)
      as [md [-> [->|[_ Hev]]]]; [|discriminate].
    rewrite with_mode_same. unfold get_state, lift.
    destruct (lookup_known _ Hok) as [cfg ->].
    simpl. unfold set_messages, ret.
    fold (with_messages st []).
    rewrite script_idle by exact Hok. reflexivity.
  - unfold script, bind.
    destruct (sidebar_buttons_spec (Submit prompt) (dict_keys MODE_PROMPTS) st)
      as [md [-> [->|[_ Hev]]]]; [|discriminate].
    rewrite with_mode_same. unfold get_state, lift.
    destruct (lookup_known _ Hok) as [cfg ->].
    simpl. destruct (String.eqb prompt ""); simpl; [reflexivity|].
    unfold messages_append, bind, get_state, set_messages.
    destruct (get_response_returns create prompt (current_mode st)
                (with_messages st (messages st ++ [user_turn prompt])))
      as [response [st_d Hd]].
    exists response, st_d. split; [exact Hd|].
    pose proof Hd as Hm. apply get_response_frame in Hm as [Hm _].
    unfold with_messages, user_turn in Hd. simpl current_mode. rewrite Hd.
    unfold ret, with_messages. rewrite Hm. simpl.
    now rewrite <- List.app_assoc.
  - rewrite script_idle by exact Hok. reflexivity.
Qed.

Lemma run_mode_ok (ev : interaction) (st : state) :
  mode_ok st -> mode_ok (snd (run create ev st)).
Proof.
  intros Hok. pose proof (run_spec ev st Hok) as H.
  destruct ev as [name| |prompt|].
  - destruct H as [md [Hin ->]]. exact Hin.
  - rewrite H. exact Hok.
  - destruct (String.eqb prompt ""); [rewrite H; exact Hok|].
    destruct H as [response [st_d [Hd ->]]].
    apply get_response_frame in Hd as [_ Hm].
    unfold mode_ok. simpl. rewrite Hm. exact Hok.
  - rewrite H. exact Hok.
Qed.

Lemma run_all_mode_ok (evs : list interaction) :
  forall st : state, mode_ok st -> mode_ok (run_all create evs st).
Proof.
  induction evs as [|ev evs IH]; intros st Hok; simpl; [exact Hok|].
  apply IH. now apply run_mode_ok.
Qed.

Lemma initial_mode_ok (w : World) : mode_ok (initial w).
Proof. unfold mode_ok. simpl. now left. Qed.

End Transcript.

(** C8.  Take any sequence of interactions from the first load of the
    page, and the next interaction.  The run does not fail.  A submitted
    non-empty text appends the user turn and then the assistant turn
    whose content is the value [get_response] returns for that text in
    the current mode; the older turns stay in front, in their order.
    The clear button empties the transcript.  Nothing else changes the
    transcript: a mode button, a run without interaction, and
    [st.chat_input] yielding the empty string (false in the [if]) leave
    it as it is. *)
Theorem transcript_chronological
        {World : Type} (create : request -> World -> outcome * World)
        (w : World) (evs : list interaction) (ev : interaction) :
  let st := run_all create evs (initial w) in
  let st' := snd (run create ev st) in
  fst (run create ev st) = Returned tt
  /\ match ev with
     | Submit prompt =>
         if String.eqb prompt "" then messages st' = messages st
         else
           exists (response : value) (st_d : session_state World),
             get_response create prompt (current_mode st)
               (with_messages st (messages st ++ [user_turn prompt]))
             = (Returned response, st_d)
             /\ messages st' =
                (messages st ++ [user_turn prompt; assistant_turn response])%list
     | ClickClear => messages st' = []
     | ClickMode _ | NoInteraction => messages st' = messages st
     end.
Proof.
  intros st st'.
  assert (Hok : mode_ok st)
    by (apply run_all_mode_ok, initial_mode_ok).
  pose proof (run_spec create ev st Hok) as H. subst st'.
  destruct ev as [name| |prompt|].
  - destruct H as [md [_ ->]]. now split.
  - rewrite H. now split.
  - destruct (String.eqb prompt "").
    + rewrite H. now split.
    + destruct H as [response [st_d [Hd ->]]]. split; [reflexivity|].
      now exists response, st_d.
  - rewrite H. now split.
Qed.

(* ================================================================== *)
(** * The properties on the scripted client *)

Example transcript_example :
  messages
    (run_all scripted
       [Submit "first"; ClickClear; Submit "a"; ClickMode "Python Helper"; Submit "a"]
       (initial [Completed {| choices := [Str "one"] |};
                 Failed "503"; Completed {| choices := [Str "two"] |};
                 Completed {| choices := [Str "three"] |}]))
  = [user_turn "a"; assistant_turn (Str "two");
     user_turn "a"; assistant_turn (Str "three")].
Proof. reflexivity. Qed.

Example lookup_python_helper_icon :
  match lookup "Python Helper" with
  | Returned cfg => icon cfg
  | Raised _ => ""
  end = "🐍".
Proof. reflexivity. Qed.

Example repr_quotes_and_escapes :
  PyStr.repr ("it's" ++ PyStr.LF)
  = String PyStr.DQUOTE ("it's\n" ++ String PyStr.DQUOTE "")
  /\ PyStr.repr "plain" = "'plain'".
Proof. split; reflexivity. Qed.

(** The message of a [KeyError] is the quoted key, escapes included, so
    a key that starts with a line feed can complete a pattern. *)
Example unknown_mode_with_line_feed :
  get_response scripted "hi" (PyStr.LF ++ "ot ready for inference") (initial [])
  = (Returned (Str WARMING_UP), initial []).
Proof. reflexivity. Qed.

Example empty_choices_is_a_failure :
  fst (get_response scripted "hi" "General Chat"
         (initial [Failed "a"; Failed "b"; Failed "c"; Completed {| choices := [] |}]))
  = Returned (Str "Error generating response: list index out of range").
Proof. reflexivity. Qed.

(** A mode name that is not in the registry and starts with the control
    character U+008A: [repr] writes the character as an escape, and the
    escape completes the pattern. *)
Example unknown_mode_with_control_character :
  get_response scripted "hi"
    (String (ascii_of_N 194) (String (ascii_of_N 138) "uthentication")) (initial [])
  = (Returned (Str AUTH_ERROR), initial []).
Proof. reflexivity. Qed.

Example repr_of_non_ascii :
  PyStr.repr "é💬" = "'é💬'"
  /\ PyStr.repr (String (ascii_of_N 194) (String (ascii_of_N 160) "")) = "'\xa0'"
  /\ PyStr.repr (String (ascii_of_N 226) (String (ascii_of_N 128) (String (ascii_of_N 138) "")))
     = "'\u200a'".
Proof. repeat split; reflexivity. Qed.

Lemma dispatch_total_witness :
  exists (s : string) (st' : session_state nat),
    get_response (only_model "google/gemma-2-2b-it" "ok") "hi" "General Chat" (initial 0)
    = (Returned (Str s), st').
Proof.
  apply (dispatch_total (only_model "google/gemma-2-2b-it" "ok") "hi" "General Chat"
           (initial 0)).
  intros r w. unfold only_model. simpl. destruct (String.eqb _ _); reflexivity.
Defined.

Lemma dispatch_first_success_witness :
  exists st',
    get_response scripted "hi" "General Chat"
      (initial [Failed "503 Service Unavailable"; Failed "model_pending_deploy";
                Completed {| choices := [Str "Hello!"; Str "Hi there"] |}])
    = (Returned (Str "Hello!"), st')
    /\ map model (sent st') = firstn 3 models_to_try
    /\ client st' = [].
Proof.
  eexists. split.
  - eapply dispatch_first_success
      with (pre := ["Qwen/Qwen2.5-1.5B-Instruct"; "mistralai/Mistral-7B-Instruct-v0.3"])
           (m := "meta-llama/Llama-3.2-3B-Instruct")
           (post := ["google/gemma-2-2b-it"]);
      reflexivity.
  - split; reflexivity.
Defined.

Lemma dispatch_transient_witness :
  exists st',
    get_response scripted "hi" "Grammar Checker"
      (initial [Failed "a"; Failed "b"; Failed "c";
                Failed "Model Qwen is currently loading: model_pending_deploy"])
    = (Returned (Str WARMING_UP), st').
Proof.
  eexists.
  eapply dispatch_transient
    with (errs := [ClientError "a"; ClientError "b"; ClientError "c"])
         (e := ClientError "Model Qwen is currently loading: model_pending_deploy").
  - reflexivity.
  - reflexivity.
  - left. exists "Model Qwen is currently loading: ", "". reflexivity.
Defined.

Lemma dispatch_auth_witness :
  exists st',
    get_response scripted "hi" "Paragraph Writer"
      (initial [Failed "a"; Failed "b"; Failed "c"; Failed "401 Unauthorized"])
    = (Returned (Str AUTH_ERROR), st').
Proof.
  eexists.
  eapply dispatch_auth
    with (errs := [ClientError "a"; ClientError "b"; ClientError "c"])
         (e := ClientError "401 Unauthorized").
  - reflexivity.
  - reflexivity.
  - right. exists "401 ", "Unauthorized", "". split; reflexivity.
  - apply PyStrFacts.contains_false. reflexivity.
  - apply PyStrFacts.contains_false. reflexivity.
Defined.

Lemma dispatch_generic_witness :
  exists st',
    get_response scripted "hi" "Python Helper"
      (initial [Failed "a"; Failed "b"; Failed "c"; Failed "rate limit exceeded"])
    = (Returned (Str "Error generating response: rate limit exceeded"), st')
    /\ substring_of "rate limit exceeded"
         "Error generating response: rate limit exceeded".
Proof.
  eexists.
  eapply (dispatch_generic scripted "hi" "Python Helper")
    with (errs := [ClientError "a"; ClientError "b"; ClientError "c"])
         (e := ClientError "rate limit exceeded").
  - reflexivity.
  - reflexivity.
  - apply PyStrFacts.contains_false. reflexivity.
  - apply PyStrFacts.contains_false. reflexivity.
  - intros H. apply PyStrFacts.contains_lower in H; [discriminate H | reflexivity].
  - intros H. apply PyStrFacts.contains_lower in H; [discriminate H | reflexivity].
Defined.

Lemma dispatch_transient_before_auth_witness :
  exists st',
    get_response scripted "hi" "General Chat"
      (initial [Failed "a"; Failed "b"; Failed "c";
                Failed "Unauthorized: model_pending_deploy"])
    = (Returned (Str WARMING_UP), st')
    /\ WARMING_UP <> AUTH_ERROR.
Proof.
  eexists.
  eapply (dispatch_transient_before_auth scripted "hi" "General Chat")
    with (errs := [ClientError "a"; ClientError "b"; ClientError "c"])
         (e := ClientError "Unauthorized: model_pending_deploy").
  - reflexivity.
  - reflexivity.
  - left. exists "Unauthorized: ", "". reflexivity.
  - right. exists "", "Unauthorized", ": model_pending_deploy". split; reflexivity.
Defined.

Lemma dispatch_requests_witness :
  exists (cfg : mode_config) (k : nat),
    lookup "Python Helper" = Returned cfg
    /\ 1 <= k <= 4
    /\ sent (snd (get_response scripted "hi" "Python Helper"
                    (initial [Failed "503"; Completed {| choices := [Str "ok"] |}])))
       = map (chat_request (system_prompt cfg) "hi") (firstn k models_to_try).
Proof.
  eexists.
  destruct (dispatch_requests scripted "hi" "Python Helper" _
              (initial [Failed "503"; Completed {| choices := [Str "ok"] |}]) eq_refl)
    as [k [Hk [Hsent _]]].
  exists k. split; [reflexivity | split; [exact Hk | exact Hsent]].
Defined.

Lemma registry_lookup_witness :
  lookup "Translator" = Raised (KeyError "Translator").
Proof.
  apply registry_lookup. simpl.
  intros [H|[H|[H|[H|[]]]]]; discriminate H.
Defined.

Lemma dispatch_unknown_mode_witness :
  get_response scripted "hi" "Translator" (initial [Failed "unused"])
  = (Returned (Str "Error generating response: 'Translator'"),
     initial [Failed "unused"]).
Proof.
  assert (Hout : ~ In "Translator" (dict_keys MODE_PROMPTS))
    by (simpl; intros [H|[H|[H|[H|[]]]]]; discriminate H).
  destruct (dispatch_unknown_mode scripted "hi" "Translator"
              (initial [Failed "unused"]) Hout) as [Hrun Hgen].
  rewrite Hrun, Hgen.
  - reflexivity.
  - apply PyStrFacts.contains_false. reflexivity.
  - apply PyStrFacts.contains_false. reflexivity.
  - intros H. apply PyStrFacts.contains_lower in H; [discriminate H | reflexivity].
  - intros H. apply PyStrFacts.contains_lower in H; [discriminate H | reflexivity].
Defined.

(* ================================================================== *)
(** * Further properties of the classification *)

Lemma transient_dec (msg : string) :
  (PyStr.contains "model_pending_deploy" msg
   || PyStr.contains "not ready for inference" msg = true <-> transient msg).
Proof.
  unfold transient. rewrite orb_true_iff, !PyStrFacts.contains_true. reflexivity.
Qed.

Lemma auth_failure_dec (msg : string) :
  (PyStr.contains "authentication" (PyStr.lower msg)
   || PyStr.contains "unauthorized" (PyStr.lower msg) = true <-> auth_failure msg).
Proof.
  unfold auth_failure.
  rewrite orb_true_iff, !PyStrFacts.contains_lower by reflexivity. reflexivity.
Qed.

Lemma warming_up_not_generic (rest : string) : WARMING_UP <> GENERIC_PREFIX ++ rest.
Proof. intros H. vm_compute in H. discriminate H. Qed.

Lemma auth_error_not_generic (rest : string) : AUTH_ERROR <> GENERIC_PREFIX ++ rest.
Proof. intros H. vm_compute in H. discriminate H. Qed.

Lemma warming_up_not_auth_error : WARMING_UP <> AUTH_ERROR.
Proof. intros H. vm_compute in H. discriminate H. Qed.

(** X1.  The text the handler returns tells which branch produced it:
    it is [WARMING_UP] exactly for a message with a transient pattern,
    [AUTH_ERROR] exactly for a message with an authentication pattern
    and no transient one, and it starts with
    ["Error generating response: "] exactly when the message has
    neither. *)
Theorem classify_identifies (msg : string) :
  (classify msg = WARMING_UP <-> transient msg)
  /\ (classify msg = AUTH_ERROR <-> ~ transient msg /\ auth_failure msg)
  /\ ((exists rest, classify msg = "Error generating response: " ++ rest)
      <-> ~ transient msg /\ ~ auth_failure msg).
Proof.
  pose proof (transient_dec msg) as Ht. pose proof (auth_failure_dec msg) as Ha.
  unfold classify.
  destruct (PyStr.contains "model_pending_deploy" msg
            || PyStr.contains "not ready for inference" msg).
  - assert (T : transient msg) by now apply Ht.
    split; [tauto | split].
    + split; [intros H; now apply warming_up_not_auth_error in H | tauto].
    + split; [intros [rest H]; now apply warming_up_not_generic in H | tauto].
  - assert (T : ~ transient msg) by (intros T; apply Ht in T; discriminate T).
    destruct (PyStr.contains "authentication" (PyStr.lower msg)
              || PyStr.contains "unauthorized" (PyStr.lower msg)).
    + assert (A : auth_failure msg) by now apply Ha.
      split; [|split].
      * split; [intros H; symmetry in H; now apply warming_up_not_auth_error in H | tauto].
      * tauto.
      * split; [intros [rest H]; now apply auth_error_not_generic in H | tauto].
    + assert (A : ~ auth_failure msg) by (intros A; apply Ha in A; discriminate A).
      split; [|split].
      * split; [intros H; symmetry in H; now apply warming_up_not_generic in H | tauto].
      * split; [intros H; symmetry in H; now apply auth_error_not_generic in H | tauto].
      * split; [tauto | intros _; now exists msg].
Qed.

(* ================================================================== *)
(** * Further properties of the dispatcher *)

Section DispatcherCases.

Context {World : Type}.
Variable create : request -> World -> outcome * World.

Abbreviation state := (session_state World).

(** A walk of the loop ends in one of two ways. *)
Lemma for_model_in_cases (models : list string) (sp up : string) :
  forall (rest : list string) (st st' : state) (r : result value),
    rest <> [] ->
    Forall (fun x => x <> last_model models) (removelast rest) ->
    last rest "" = last_model models ->
    for_model_in create models rest sp up st = (r, st') ->
    (exists pre m post errs st1 c,
        rest = (pre ++ m :: post)%list
        /\ failures create sp up pre st = Some (errs, st1)
        /\ attempt create sp up m st1 = (Returned c, st')
        /\ r = Returned c)
    \/ (exists errs e,
           failures create sp up rest st = Some ((errs ++ [e])%list, st')
           /\ r = Raised e).
Proof.
  induction rest as [|m rest IH]; intros st st' r Hne Hpre Hlast H; [congruence|].
  rewrite for_model_in_cons in H.
  destruct (attempt create sp up m st) as [[c|e] st0] eqn:Ha.
  - left. inversion H; subst.
    exists [], m, rest, [], st, c. repeat split; assumption.
  - destruct rest as [|m' rest].
    + simpl in Hlast. subst m. rewrite String.eqb_refl in H. simpl in H.
      inversion H; subst. right. exists [], e. simpl. rewrite Ha. now split.
    + assert (Hm : m <> last_model models) by (inversion Hpre; assumption).
      apply String.eqb_neq in Hm. rewrite Hm in H. simpl negb in H. cbv iota in H.
      apply IH in H; [| discriminate | now inversion Hpre | exact Hlast].
      destruct H as [[pre [m1 [post [errs [st1 [c [Hsplit [Hf [Ha1 Hr]]]]]]]]]
                    |[errs [e' [Hf Hr]]]].
      * left. exists (m :: pre), m1, post, (e :: errs), st1, c.
        repeat split; try assumption.
        -- simpl. now rewrite Hsplit.
        -- simpl. now rewrite Ha, Hf.
      * right. exists (e :: errs), e'. split; [|exact Hr].
        change (failures create sp up (m :: m' :: rest) st)
          with (match attempt create sp up m st with
                | (Raised e0, st1) =>
                    match failures create sp up (m' :: rest) st1 with
                    | Some (errs0, st2) => Some (e0 :: errs0, st2)
                    | None => None
                    end
                | (Returned _, _) => None
                end).
        now rewrite Ha, Hf.
Qed.

(** One attempt does not read the transcript or the mode. *)
Lemma attempt_frame (sp up m : string) (st : state)
      (ms : list message) (md : string) :
  attempt create sp up m
    {| messages := ms; current_mode := md; client := client st; sent := sent st |}
  = let (r, st') := attempt create sp up m st in
    (r, {| messages := ms; current_mode := md; client := client st'; sent := sent st' |}).
Proof.
  rewrite !attempt_unfold. simpl client.
  destruct (create _ _) as [[c|msg] w]; [destruct (choices c)|]; reflexivity.
Qed.

Lemma for_model_in_frame (models : list string) (sp up : string)
      (ms : list message) (md : string) :
  forall (rest : list string) (st : state),
    for_model_in create models rest sp up
      {| messages := ms; current_mode := md; client := client st; sent := sent st |}
    = let (r, st') := for_model_in create models rest sp up st in
      (r, {| messages := ms; current_mode := md; client := client st'; sent := sent st' |}).
Proof.
  induction rest as [|m rest IH]; intros st; [reflexivity|].
  rewrite !for_model_in_cons, attempt_frame.
  destruct (attempt create sp up m st) as [[c|e] st0]; [reflexivity|].
  destruct (negb _); [apply IH | reflexivity].
Qed.

(** A client whose answer depends on the request only gives every walk
    of the loop the same result. *)
Lemma for_model_in_stateless (models : list string) (sp up : string) :
  (forall r w1 w2, fst (create r w1) = fst (create r w2)) ->
  forall (rest : list string) (st1 st2 : state),
    fst (for_model_in create models rest sp up st1)
    = fst (for_model_in create models rest sp up st2).
Proof.
  intros Hc. induction rest as [|m rest IH]; intros st1 st2; [reflexivity|].
  rewrite !for_model_in_cons, !attempt_unfold.
  pose proof (Hc (chat_request sp up m) (client st1) (client st2)) as E.
  destruct (create _ (client st1)) as [o1 w1].
  destruct (create _ (client st2)) as [o2 w2].
  simpl in E. subst o2.
  destruct o1 as [c|msg]; [destruct (choices c)|]; try reflexivity;
    (destruct (negb _); [apply IH | reflexivity]).
Qed.

End DispatcherCases.

(** X2.  For a known mode every call of [get_response] goes one of two
    ways.  Either some candidate is the first whose attempt returns, and
    the result is the content [c] that attempt returned; or all four
    attempts raise, and the result is the classification of the message
    of the last exception. *)
Theorem dispatch_cases
        {World : Type} (create : request -> World -> outcome * World)
        (up mode : string) (cfg : mode_config) (st : session_state World) :
  lookup mode = Returned cfg ->
  (exists pre m post errs st1 c st',
      models_to_try = (pre ++ m :: post)%list
      /\ failures create (system_prompt cfg) up pre st = Some (errs, st1)
      /\ attempt create (system_prompt cfg) up m st1 = (Returned c, st')
      /\ get_response create up mode st = (Returned c, st'))
  \/ (exists errs e st',
         failures create (system_prompt cfg) up models_to_try st
         = Some ((errs ++ [e])%list, st')
         /\ get_response create up mode st = (Returned (Str (classify (str e))), st')).
Proof.
  intros Hl. rewrite get_response_unfold, Hl.
  destruct (for_model_in create models_to_try models_to_try (system_prompt cfg) up st)
    as [r st'] eqn:Hloop.
  apply for_model_in_cases in Hloop.
  - destruct Hloop as [[pre [m [post [errs [st1 [c [Hs [Hf [Ha ->]]]]]]]]]
                      |[errs [e [Hf ->]]]].
    + left. now exists pre, m, post, errs, st1, c, st'.
    + right. now exists errs, e, st'.
  - discriminate.
  - simpl. repeat constructor; vm_compute; discriminate.
  - reflexivity.
Qed.

(** X3.  [get_response] neither reads nor writes the transcript and the
    current mode of the session: with any other transcript and mode in
    the session it returns the same value, leaves the client in the same
    state and sends the same requests, and the transcript and mode it
    was given are still there afterwards. *)
Theorem dispatch_ignores_transcript
        {World : Type} (create : request -> World -> outcome * World)
        (up mode : string) (st : session_state World)
        (ms : list message) (md : string) :
  get_response create up mode
    {| messages := ms; current_mode := md; client := client st; sent := sent st |}
  = let (r, st') := get_response create up mode st in
    (r, {| messages := ms; current_mode := md; client := client st'; sent := sent st' |}).
Proof.
  rewrite !get_response_unfold.
  destruct (lookup mode) as [cfg|e]; [|reflexivity].
  rewrite for_model_in_frame.
  destruct (for_model_in create models_to_try models_to_try (system_prompt cfg) up st)
    as [[v|e] st']; reflexivity.
Qed.

(** X4.  If the answer of the client depends on the request only, the
    value [get_response] returns depends on the user text and the mode
    only: a second call with the same arguments, in whatever session,
    returns the same text. *)
Theorem dispatch_repeatable
        {World : Type} (create : request -> World -> outcome * World)
        (up mode : string) (st1 st2 : session_state World) :
  (forall r w1 w2, fst (create r w1) = fst (create r w2)) ->
  fst (get_response create up mode st1) = fst (get_response create up mode st2).
Proof.
  intros Hc. rewrite !get_response_unfold.
  destruct (lookup mode) as [cfg|e]; [|reflexivity].
  pose proof (for_model_in_stateless create models_to_try (system_prompt cfg) up Hc
                models_to_try st1 st2) as E.
  destruct (for_model_in create models_to_try models_to_try (system_prompt cfg) up st1)
    as [r1 s1].
  destruct (for_model_in create models_to_try models_to_try (system_prompt cfg) up st2)
    as [r2 s2].
  simpl in E. subst r2. destruct r1; reflexivity.
Qed.

(* ================================================================== *)
(** * Further properties of the script *)

Lemma dict_get_in {A : Type} (d : list (string * A)) (key : string) (v : A) :
  dict_get d key = Returned v -> In (key, v) d.
Proof.
  induction d as [|[k x] d IH]; simpl; [discriminate|].
  destruct (String.eqb_spec k key) as [->|Hne].
  - intros H; inversion H; now left.
  - intros H; right; now apply IH.
Qed.

Lemma in_firstn {A : Type} (k : nat) (l : list A) (x : A) :
  In x (firstn k l) -> In x l.
Proof.
  revert l; induction k as [|k IH]; intros [|y l] H; simpl in H; try contradiction.
  destruct H as [->|H]; [now left | right; now apply IH].
Qed.

Section ScriptFacts.

Context {World : Type}.
Variable create : request -> World -> outcome * World.

Abbreviation state := (session_state World).

Lemma get_response_sent (up mode : string) (cfg : mode_config) (st : state) :
  lookup mode = Returned cfg ->
  exists k : nat,
    1 <= k <= 4 /\
    sent (snd (get_response create up mode st)) =
    (sent st ++ map (chat_request (system_prompt cfg) up) (firstn k models_to_try))%list.
Proof.
  intros Hl. rewrite get_response_unfold, Hl.
  destruct (for_model_in create models_to_try models_to_try (system_prompt cfg) up st)
    as [r st'] eqn:Hloop.
  apply for_model_in_sent in Hloop as [k [Hk [Hpos Hst]]].
  exists k. split; [split; [apply Hpos; discriminate | exact Hk]|].
  destruct r; simpl; rewrite Hst; reflexivity.
Qed.

(** The button of a mode of the registry selects that mode. *)
Lemma sidebar_buttons_click (name : string) (names : list string) :
  In name names ->
  forall st : state,
    sidebar_buttons (ClickMode name) names st = (Returned tt, with_mode st name).
Proof.
  induction names as [|n names IH]; intros Hin st; [contradiction|].
  simpl. unfold bind.
  destruct (String.eqb_spec name n) as [<-|Hne].
  - unfold set_current_mode. fold (with_mode st name).
    destruct (sidebar_buttons_spec (ClickMode name) names (with_mode st name))
      as [md [-> Hmd]].
    assert (md = name) as ->.
    { destruct Hmd as [->|[_ Hev]]; [reflexivity | now inversion Hev]. }
    reflexivity.
  - unfold ret. apply IH. destruct Hin as [->|Hin]; [congruence | exact Hin].
Qed.

(** What one interaction sends. *)
Lemma run_sent (ev : interaction) (st : state) :
  mode_ok st ->
  match ev with
  | Submit prompt =>
      if String.eqb prompt "" then sent (snd (run create ev st)) = sent st
      else
        exists (cfg : mode_config) (k : nat),
          lookup (current_mode st) = Returned cfg
          /\ 1 <= k <= 4
          /\ sent (snd (run create ev st)) =
             (sent st ++ map (chat_request (system_prompt cfg) prompt)
                             (firstn k models_to_try))%list
  | _ => sent (snd (run create ev st)) = sent st
  end.
Proof.
  intros Hok. pose proof (run_spec create ev st Hok) as H.
  destruct ev as [name| |prompt|].
  - destruct H as [md [_ ->]]. reflexivity.
  - rewrite H. reflexivity.
  - destruct (String.eqb prompt ""); [rewrite H; reflexivity|].
    destruct H as [response [st_d [Hd ->]]].
    destruct (lookup_known _ Hok) as [cfg Hl].
    destruct (get_response_sent prompt (current_mode st) cfg
                (with_messages st (messages st ++ [user_turn prompt])) Hl)
      as [k [Hk Hs]].
    rewrite Hd in Hs. exists cfg, k. split; [exact Hl | split; [exact Hk | exact Hs]].
  - rewrite H. reflexivity.
Qed.



Lemma page_request_more (texts more : list string) (r : request) :
  page_request texts r -> page_request (texts ++ more) r.
Proof.
  intros [name [cfg [text [m [H1 [H2 [H3 H4]]]]]]].
  exists name, cfg, text, m.
  repeat split; try assumption. apply in_or_app. now left.
Qed.

Lemma run_all_requests (evs : list interaction) :
  forall (st : state) (texts : list string),
    mode_ok st ->
    Forall (page_request texts) (sent st) ->
    Forall (page_request (texts ++ submitted evs)) (sent (run_all create evs st)).
Proof.
  induction evs as [|ev evs IH]; intros st texts Hok Hall.
  - simpl. rewrite app_nil_r. exact Hall.
  - pose proof (run_sent ev st Hok) as Hs.
    pose proof (run_mode_ok create ev st Hok) as Hok'.
    simpl run_all.
    destruct ev as [name| |prompt|]; simpl submitted;
      try (apply IH; [exact Hok' | now rewrite Hs]).
    destruct (String.eqb prompt "").
    + apply IH; [exact Hok' | now rewrite Hs].
    + destruct Hs as [cfg [k [Hl [Hk Hs]]]].
      change (texts ++ prompt :: submitted evs)%list
        with (texts ++ [prompt] ++ submitted evs)%list.
      rewrite List.app_assoc.
      apply IH; [exact Hok'|].
      rewrite Hs. apply Forall_app. split.
      * eapply Forall_impl; [|exact Hall]. intros r. apply page_request_more.
      * apply Forall_forall. intros r Hr.
        apply in_map_iff in Hr as [m [<- Hm]].
        exists (current_mode st), cfg, prompt, m.
        repeat split.
        -- apply dict_get_in. exact Hl.
        -- apply in_or_app. right. now left.
        -- eapply in_firstn. exact Hm.
Qed.

Lemma run_all_sent_length (evs : list interaction) :
  forall st : state,
    mode_ok st ->
    length (sent st) + length (submitted evs)
    <= length (sent (run_all create evs st))
    <= length (sent st) + 4 * length (submitted evs).
Proof.
  induction evs as [|ev evs IH]; intros st Hok.
  - simpl. lia.
  - pose proof (run_sent ev st Hok) as Hs.
    pose proof (run_mode_ok create ev st Hok) as Hok'.
    specialize (IH _ Hok'). simpl run_all.
    destruct ev as [name| |prompt|]; simpl submitted;
      try (rewrite Hs in IH; exact IH).
    destruct (String.eqb prompt "").
    + rewrite Hs in IH. exact IH.
    + destruct Hs as [cfg [k [_ [Hk Hs]]]].
      rewrite Hs, length_app, length_map, length_firstn in IH.
      change (length models_to_try) with 4 in IH.
      simpl length. lia.
Qed.

End ScriptFacts.

(** X5.  A click on the button of a mode of the registry makes that mode
    the current one, whatever the mode was, and changes nothing else:
    the transcript stays, the client is not called. *)
Theorem mode_button_selects
        {World : Type} (create : request -> World -> outcome * World)
        (name : string) (st : session_state World) :
  In name (dict_keys MODE_PROMPTS) ->
  run create (ClickMode name) st = (Returned tt, with_mode st name).
Proof.
  intros Hin. unfold run, script, bind.
  rewrite (sidebar_buttons_click name (dict_keys MODE_PROMPTS) Hin st).
  unfold get_state, lift. simpl current_mode.
  destruct (lookup_known _ Hin) as [cfg ->]. reflexivity.
Qed.

(** X6.  In every session reached from the first load the current mode
    is a key of the registry, so the lookups of line 130 and of
    [get_response] find an entry: the script never calls the dispatcher
    with an unknown mode. *)
Theorem current_mode_in_registry
        {World : Type} (create : request -> World -> outcome * World)
        (w : World) (evs : list interaction) :
  exists cfg : mode_config,
    lookup (current_mode (run_all create evs (initial w))) = Returned cfg
    /\ In (current_mode (run_all create evs (initial w)), cfg) MODE_PROMPTS.
Proof.
  assert (Hok : mode_ok (run_all create evs (initial w))).
  { generalize (initial_mode_ok w). generalize (initial w).
    induction evs as [|ev evs IH]; intros st Hst; simpl; [exact Hst|].
    apply IH. now apply run_mode_ok. }
  destruct (lookup_known _ Hok) as [cfg Hl].
  exists cfg. split; [exact Hl | now apply dict_get_in].
Qed.


(** X8.  Every request the page has ever sent is the request of lines
    93-102 for the system prompt of a mode of the registry, a non-empty
    text the user submitted, and one of the four candidate models.
    Earlier turns of the transcript are never part of a request. *)
Theorem page_requests_wellformed
        {World : Type} (create : request -> World -> outcome * World)
        (w : World) (evs : list interaction) :
  Forall (page_request (submitted evs)) (sent (run_all create evs (initial w))).
Proof.
  apply (run_all_requests create evs (initial w) [] (initial_mode_ok w)).
  constructor.
Qed.

(** X9.  The page calls the client at least once and at most four times
    for each non-empty submitted text, and for nothing else: mode
    buttons, the clear button and reruns send nothing. *)
Theorem page_request_count
        {World : Type} (create : request -> World -> outcome * World)
        (w : World) (evs : list interaction) :
  length (submitted evs)
  <= length (sent (run_all create evs (initial w)))
  <= 4 * length (submitted evs).
Proof.
  pose proof (run_all_sent_length create evs (initial w) (initial_mode_ok w)) as H.
  simpl in H. lia.
Qed.

(* ================================================================== *)
(** * The page from its first line *)

Section Page.

Context {World : Type}.
Variable connect : string -> result World.
Variable create : request -> World -> outcome * World.

Lemma page_store_of (token : string) (ev : interaction) (st : session_state World) :
  truthy (Some token) = true ->
  page connect create (Some token) ev (store_of st)
  = store_of (snd (run create ev st)).
Proof.
  intros Ht. unfold page. rewrite Ht. simpl. now destruct st.
Qed.

Lemma page_all_store_of (token : string) (evs : list interaction) :
  truthy (Some token) = true ->
  forall st : session_state World,
    page_all connect create (Some token) evs (store_of st)
    = store_of (run_all create evs st).
Proof.
  intros Ht. induction evs as [|ev evs IH]; intros st; cbn [page_all run_all];
    [reflexivity|].
  now rewrite page_store_of, IH.
Qed.

Lemma page_without_client (HF_TOKEN : option string) (ev : interaction)
      (ms : option (list message)) (md : option string) :
  truthy HF_TOKEN = false
  \/ (exists token e, HF_TOKEN = Some token /\ connect token = Raised e) ->
  (ms = None \/ ms = Some []) ->
  exists ms' md',
    page connect create HF_TOKEN ev
      {| stored_messages := ms; stored_mode := md;
         stored_client := None; stored_sent := [] |}
    = {| stored_messages := ms'; stored_mode := md';
         stored_client := None; stored_sent := [] |}
    /\ (ms' = None \/ ms' = Some []).
Proof.
  intros H Hms. unfold page.
  destruct HF_TOKEN as [token|]; [|now exists ms, md].
  destruct (truthy (Some token)) eqn:Ht; simpl negb; cbv iota; [|now exists ms, md].
  destruct H as [H|[token' [e [Heq Hc]]]]; [discriminate H|].
  inversion Heq; subst token'. simpl. rewrite Hc.
  eexists. eexists. split; [reflexivity|].
  right. destruct Hms as [->| ->]; reflexivity.
Qed.

End Page.

(** X10.  With a non-empty token and a constructor that returns the
    client [w], the store after one or more runs of the whole file is
    the session the script reaches from [initial w]: the keys are set
    once, the client is created once, and a later run starts from the
    transcript, the mode and the client the earlier runs left. *)
Theorem page_keeps_session
        {World : Type} (connect : string -> result World)
        (create : request -> World -> outcome * World)
        (token : string) (w : World) (ev : interaction) (evs : list interaction) :
  token <> "" ->
  connect token = Returned w ->
  page_all connect create (Some token) (ev :: evs) empty_store
  = store_of (run_all create (ev :: evs) (initial w)).
Proof.
  intros Hne Hc.
  assert (Ht : truthy (Some token) = true).
  { simpl. apply String.eqb_neq in Hne. now rewrite Hne. }
  cbn [page_all run_all].
  rewrite <- (page_all_store_of connect create token evs Ht).
  f_equal. unfold page. rewrite Ht. simpl. now rewrite Hc.
Qed.

(** X11.  When the token is absent or empty, or the constructor of the
    client raises, no run gets past the first lines: after any sequence
    of runs from an empty store no client is stored, nothing has been
    sent, and the transcript is absent or empty. *)
Theorem page_without_client_is_inert
        {World : Type} (connect : string -> result World)
        (create : request -> World -> outcome * World)
        (HF_TOKEN : option string) (evs : list interaction) :
  truthy HF_TOKEN = false
  \/ (exists token e, HF_TOKEN = Some token /\ connect token = Raised e) ->
  let s := page_all connect create HF_TOKEN evs empty_store in
  stored_client s = None
  /\ stored_sent s = []
  /\ (stored_messages s = None \/ stored_messages s = Some []).
Proof.
  intros H.
  enough (G : forall (ms : option (list message)) (md : option string),
             ms = None \/ ms = Some [] ->
             let s := page_all connect create HF_TOKEN evs
                        {| stored_messages := ms; stored_mode := md;
                           stored_client := None; stored_sent := [] |} in
             stored_client s = None
             /\ stored_sent s = []
             /\ (stored_messages s = None \/ stored_messages s = Some []))
    by (apply (G None None); now left).
  induction evs as [|ev evs IH]; intros ms md Hms; cbn [page_all].
  - repeat split. exact Hms.
  - destruct (page_without_client connect create HF_TOKEN ev ms md H Hms)
      as [ms' [md' [-> Hms']]].
    apply IH. exact Hms'.
Qed.

(* ================================================================== *)
(** * The further properties on concrete clients *)

Example upper_case_transient_is_generic :
  classify "MODEL_PENDING_DEPLOY" = "Error generating response: MODEL_PENDING_DEPLOY".
Proof. reflexivity. Qed.

Example page_first_load_then_submit :
  stored_messages
    (page_all (fun _ => Returned [Completed {| choices := [Str "Hello!"] |}]) scripted
       (Some "hf_token") [NoInteraction; Submit "hi"] empty_store)
  = Some [user_turn "hi"; assistant_turn (Str "Hello!")].
Proof. reflexivity. Qed.

Lemma classify_identifies_witness :
  transient "503: model_pending_deploy".
Proof.
  apply (classify_identifies "503: model_pending_deploy"). reflexivity.
Defined.

Lemma dispatch_cases_witness :
  exists (v : value) (st' : session_state (list outcome)),
    get_response scripted "hi" "General Chat"
      (initial [Failed "503"; Completed {| choices := [Str "Hello!"] |}])
    = (Returned v, st').
Proof.
  destruct (dispatch_cases scripted "hi" "General Chat" _
              (initial [Failed "503"; Completed {| choices := [Str "Hello!"] |}]) eq_refl)
    as [[pre [m [post [errs [st1 [c [st' [_ [_ [_ H]]]]]]]]]]
       |[errs [e [st' [_ H]]]]].
  - exists c, st'. exact H.
  - exists (Str (classify (str e))), st'. exact H.
Defined.

Lemma dispatch_repeatable_witness :
  fst (get_response (only_model "google/gemma-2-2b-it" "ok") "hi" "General Chat" (initial 0))
  = fst (get_response (only_model "google/gemma-2-2b-it" "ok") "hi" "General Chat"
           (initial 7)).
Proof.
  apply (dispatch_repeatable (only_model "google/gemma-2-2b-it" "ok")).
  intros r w1 w2. reflexivity.
Defined.

Lemma mode_button_selects_witness :
  run scripted (ClickMode "Python Helper") (initial [])
  = (Returned tt, with_mode (initial []) "Python Helper").
Proof.
  apply (mode_button_selects scripted "Python Helper" (initial [])).
  simpl. right. right. right. left. reflexivity.
Defined.

Lemma page_keeps_session_witness :
  page_all (fun _ => Returned [Completed {| choices := [Str "Hello!"] |}]) scripted
    (Some "hf_token") [NoInteraction; Submit "hi"; ClickMode "Python Helper"] empty_store
  = store_of
      (run_all scripted [NoInteraction; Submit "hi"; ClickMode "Python Helper"]
         (initial [Completed {| choices := [Str "Hello!"] |}])).
Proof.
  apply (page_keeps_session
           (fun _ => Returned [Completed {| choices := [Str "Hello!"] |}]) scripted
           "hf_token" [Completed {| choices := [Str "Hello!"] |}]).
  - discriminate.
  - reflexivity.
Defined.

Lemma page_without_client_is_inert_witness :
  stored_client
    (page_all (fun _ => Returned []) scripted (Some "") [Submit "hi"; ClickClear] empty_store)
  = None
  /\ stored_sent
       (page_all (fun _ => Returned []) scripted (Some "") [Submit "hi"; ClickClear]
          empty_store)
     = []
  /\ (stored_messages
        (page_all (fun _ => Returned []) scripted (Some "") [Submit "hi"; ClickClear]
           empty_store)
      = None
      \/ stored_messages
           (page_all (fun _ => Returned []) scripted (Some "") [Submit "hi"; ClickClear]
              empty_store)
         = Some []).
Proof.
  apply (page_without_client_is_inert (fun _ => Returned []) scripted (Some "")
           [Submit "hi"; ClickClear]).
  left. reflexivity.
Defined.
